(** * Cookie Clicker simulator: a shallow embedding of [cookie_clicker.py]

    The program computes with Python floats, and the embedding reads
    them in two ways.

    Over exact rationals ([Q]): the state, the catalog, the strategies
    and [simulate_clicker].  This reading serves for what rounding
    leaves alone: which fields an operation touches, the shape of the
    history, the order of values and their signs, the exceptions of the
    catalog, and runs on values that the program computes exactly.
    Numeric comparisons there are stated with [<=], [<] and [==]
    ([Qeq]); structural facts with Leibniz equality.

    Over IEEE doubles ([Binary64], on the primitive floats): the same
    definitions with the arithmetic the program has.  This reading
    serves where a statement is about the value of a sum, a difference,
    a quotient or a ceiling.

    Exceptions are values of [exn]; a computation that may raise returns a
    [result].  The two [while True] loops of [simulate_clicker] are
    iterated with fuel: [None] means that the fuel ran out, never that
    the program stopped.

    A strategy is a function in the mathematical sense: it reads its
    five arguments and returns an item, [None], or raises.  The catalog
    ([provided.BuildInfo]) is a list of named entries. *)

From Stdlib Require Import QArith Qround Qpower ZArith List String Bool Lia Lqa.
From Stdlib Require Import Sorting.Sorted.
From Stdlib Require Import Floats.
Import ListNotations.
Open Scope Q_scope.
Set Warnings "-inexact-float".

(** ** Exceptions and results *)

Inductive exn : Type :=
| ZeroDivisionError
| KeyError (item : string).

Inductive result (A : Type) : Type :=
| Ok (a : A)
| Raise (e : exn).
Arguments Ok {A} a.
Arguments Raise {A} e.

Definition bind {A B : Type} (r : result A) (k : A -> result B) : result B :=
  match r with
  | Ok a => k a
  | Raise e => Raise e
  end.

Notation "x <- r ;; k" := (bind r (fun x => k))
  (at level 61, r at next level, right associativity).

(** Python's [a > b] on numbers. *)
Definition Qgtb (a b : Q) : bool := negb (Qle_bool a b).

(** ** ClickerState *)

(** A history entry: (time, item, cost of item, total cookies). *)
Definition event : Type := (Q * option string * Q * Q)%type.

Definition event_time (e : event) : Q := let '(t, _, _, _) := e in t.
Definition event_item (e : event) : option string := let '(_, i, _, _) := e in i.
Definition event_cost (e : event) : Q := let '(_, _, c, _) := e in c.
Definition event_total (e : event) : Q := let '(_, _, _, tot) := e in tot.

Record ClickerState : Type := mkClickerState {
  total_cookies : Q;
  current_cookies : Q;
  current_time : Q;
  cps : Q;
  history : list event
}.

(** [ClickerState.__init__] *)
Definition init : ClickerState :=
  {| total_cookies := 0;
     current_cookies := 0;
     current_time := 0;
     cps := 1;
     history := [(0, None, 0, 0)] |}.

Definition get_cookies (s : ClickerState) : Q := current_cookies s.
Definition get_cps (s : ClickerState) : Q := cps s.
Definition get_time (s : ClickerState) : Q := current_time s.
(** [get_history] returns a copy; values are immutable here. *)
Definition get_history (s : ClickerState) : list event := history s.

(** [time_until]: float division by zero raises [ZeroDivisionError];
    a negative rate divides without complaint. *)
Definition time_until (s : ClickerState) (cookies : Q) : result Q :=
  if Qle_bool cookies (get_cookies s) then Ok 0
  else if Qeq_bool (get_cps s) 0 then Raise ZeroDivisionError
  else Ok (inject_Z (Qceiling ((cookies - get_cookies s) / get_cps s))).

(** [wait] *)
Definition wait (s : ClickerState) (time : Q) : ClickerState :=
  if Qle_bool time 0 then s
  else
    let new_cookies := get_cps s * time in
    {| total_cookies := total_cookies s + new_cookies;
       current_cookies := current_cookies s + new_cookies;
       current_time := current_time s + time;
       cps := cps s;
       history := history s |}.

(** [buy_item] *)
Definition buy_item (s : ClickerState) (item_name : string) (cost additional_cps : Q)
  : ClickerState :=
  if Qgtb cost (get_cookies s) then s
  else
    {| total_cookies := total_cookies s;
       current_cookies := current_cookies s - cost;
       current_time := current_time s;
       cps := cps s + additional_cps;
       history := history s ++ [(get_time s, Some item_name, cost, total_cookies s)] |}.

(** ** BuildInfo (the catalog) *)

(** Modelled from the spec: the class [BuildInfo] of the provided module
    [poc_clicker_provided] is not among the sources.  Section 4.1 gives its
    operations: a growth rule fixed per item, multiplicative
    ([cost_new = cost_old * growth_factor]) or additive
    ([cost_new = cost_old + growth_increment]); [apply_purchase] changes the
    stored cost only; a query for an unknown item is an error. *)
Inductive growth_rule : Type :=
| Multiplicative (growth_factor : Q)
| Additive (growth_increment : Q).

Record item_info : Type := mkItem {
  item_cost : Q;
  item_cps : Q;
  item_growth : growth_rule
}.

(** The items in the catalog's own order, as a Python dict keeps them. *)
Definition BuildInfo : Type := list (string * item_info).

Fixpoint lookup (bi : BuildInfo) (item : string) : option item_info :=
  match bi with
  | [] => None
  | (k, v) :: rest => if String.eqb k item then Some v else lookup rest item
  end.

Definition build_items (bi : BuildInfo) : list string := map fst bi.

Definition get_cost (bi : BuildInfo) (item : string) : result Q :=
  match lookup bi item with
  | Some v => Ok (item_cost v)
  | None => Raise (KeyError item)
  end.

(** [BuildInfo.get_cps]; the name [get_cps] is taken by the state's. *)
Definition get_item_cps (bi : BuildInfo) (item : string) : result Q :=
  match lookup bi item with
  | Some v => Ok (item_cps v)
  | None => Raise (KeyError item)
  end.

Definition grow (v : item_info) : item_info :=
  {| item_cost := match item_growth v with
                  | Multiplicative g => item_cost v * g
                  | Additive d => item_cost v + d
                  end;
     item_cps := item_cps v;
     item_growth := item_growth v |}.

Definition update_entries (bi : BuildInfo) (item : string) : BuildInfo :=
  map (fun kv => if String.eqb (fst kv) item then (fst kv, grow (snd kv)) else kv) bi.

Definition update_item (bi : BuildInfo) (item : string) : result BuildInfo :=
  match lookup bi item with
  | Some _ => Ok (update_entries bi item)
  | None => Raise (KeyError item)
  end.

(** [clone]: an independent copy; with values, the catalog itself. *)
Definition clone (bi : BuildInfo) : BuildInfo := bi.

(** ** Strategies *)

(** A strategy is a function of (cookies, cps, history, time_left,
    build_info) that returns an item or [None], or raises. *)
Definition strategy_t : Type :=
  Q -> Q -> list event -> Q -> BuildInfo -> result (option string).

Definition strategy_cursor_broken : strategy_t :=
  fun _ _ _ _ _ => Ok (Some "Cursor"%string).

Definition strategy_none : strategy_t :=
  fun _ _ _ _ _ => Ok None.

(** The loop over [build_items()] that collects [(cost, item)] for the
    items within the price range. *)
Fixpoint available (bi : BuildInfo) (items : list string) (potential_cookies : Q)
  : result (list (Q * string)) :=
  match items with
  | [] => Ok []
  | item :: rest =>
      cost <- get_cost bi item ;;
      if Qle_bool cost potential_cookies then
        cost' <- get_cost bi item ;;
        tail <- available bi rest potential_cookies ;;
        Ok ((cost', item) :: tail)
      else available bi rest potential_cookies
  end.

(** [sorted(..., key=lambda d_x: d_x[0])]: a stable sort on the cost. *)
Fixpoint insert_by_cost (x : Q * string) (l : list (Q * string)) : list (Q * string) :=
  match l with
  | [] => [x]
  | y :: rest =>
      if Qle_bool (fst x) (fst y) then x :: l else y :: insert_by_cost x rest
  end.

Definition sorted_by_cost (l : list (Q * string)) : list (Q * string) :=
  fold_right insert_by_cost [] l.

(** [sorted(..., key=..., reverse=True)]: stable too, equal costs keep
    their order. *)
Fixpoint insert_by_cost_rev (x : Q * string) (l : list (Q * string)) : list (Q * string) :=
  match l with
  | [] => [x]
  | y :: rest =>
      if Qle_bool (fst y) (fst x) then x :: l else y :: insert_by_cost_rev x rest
  end.

Definition sorted_by_cost_rev (l : list (Q * string)) : list (Q * string) :=
  fold_right insert_by_cost_rev [] l.

Definition first_item (l : list (Q * string)) : option string :=
  match l with
  | [] => None
  | x :: _ => Some (snd x)
  end.

(** [strategy_cheap]: note [time_left / cps]. *)
Definition strategy_cheap : strategy_t :=
  fun cookies cps history time_left build_info =>
    if Qeq_bool cps 0 then Raise ZeroDivisionError
    else
      let potential_cookies := time_left / cps in
      available_items <- available build_info (build_items build_info) potential_cookies ;;
      if Nat.eqb (List.length available_items) 0 then Ok None
      else Ok (first_item (sorted_by_cost available_items)).

(** [strategy_expensive] *)
Definition strategy_expensive : strategy_t :=
  fun cookies cps history time_left build_info =>
    let potential_cookies := cookies + time_left * cps in
    available_items <- available build_info (build_items build_info) potential_cookies ;;
    if Nat.eqb (List.length available_items) 0 then Ok None
    else Ok (first_item (sorted_by_cost_rev available_items)).

(** ** simulate_clicker *)

(** One pass through the body of a [while True] loop: leave it with a
    value, or go round again with a new loop state. *)
Inductive step_result (S R : Type) : Type :=
| Break (r : R)
| Continue (s : S).
Arguments Break {S R} r.
Arguments Continue {S R} s.

Fixpoint while_true {S R : Type} (body : S -> step_result S R) (fuel : nat) (s : S)
  : option R :=
  match fuel with
  | O => None
  | Datatypes.S fuel' =>
      match body s with
      | Break r => Some r
      | Continue s' => while_true body fuel' s'
      end
  end.

Definition sim_state : Type := (ClickerState * BuildInfo)%type.

(** Where an exception leaves a loop body, the loop ends with it. *)
Definition lift_step (r : result (step_result sim_state (result sim_state)))
  : step_result sim_state (result sim_state) :=
  match r with
  | Ok st => st
  | Raise e => Break (Raise e)
  end.

(** The body of the first loop (lines 135-160). *)
Definition purchase_step (duration : Q) (strategy : strategy_t) (st : sim_state)
  : step_result sim_state (result sim_state) :=
  let '(cso, build_info_clone) := st in
  if Qgtb (get_time cso) duration then Break (Ok st)
  else
    let time_left := duration - get_time cso in
    lift_step (
      next <- strategy (get_cookies cso) (get_cps cso) (get_history cso)
                       time_left build_info_clone ;;
      match next with
      | None => Ok (Break (Ok st))
      | Some next_purchase =>
          cost <- get_cost build_info_clone next_purchase ;;
          wait_time <- time_until cso cost ;;
          let wait_to := get_time cso + wait_time in
          if Qgtb wait_to duration then Ok (Break (Ok st))
          else
            let cso1 := if Qeq_bool wait_time 0 then cso else wait cso wait_time in
            cost' <- get_cost build_info_clone next_purchase ;;
            add_cps <- get_item_cps build_info_clone next_purchase ;;
            let cso2 := buy_item cso1 next_purchase cost' add_cps in
            bi' <- update_item build_info_clone next_purchase ;;
            Ok (Continue (cso2, bi'))
      end).

(** The body of the second loop (lines 164-173): no [update_item] here. *)
Definition final_step (duration : Q) (strategy : strategy_t) (st : sim_state)
  : step_result sim_state (result sim_state) :=
  let '(cso, build_info_clone) := st in
  let time_left := duration - get_time cso in
  lift_step (
    next <- strategy (get_cookies cso) (get_cps cso) (get_history cso)
                     time_left build_info_clone ;;
    match next with
    | None => Ok (Break (Ok st))
    | Some next_purchase =>
        cost <- get_cost build_info_clone next_purchase ;;
        if Qle_bool cost (get_cookies cso) then
          cost' <- get_cost build_info_clone next_purchase ;;
          add_cps <- get_item_cps build_info_clone next_purchase ;;
          Ok (Continue (buy_item cso next_purchase cost' add_cps, build_info_clone))
        else Ok (Break (Ok st))
    end).

(** The run up to [return cso], with the working catalog still in hand. *)
Definition simulate_run (fuel : nat) (build_info : BuildInfo) (duration : Q)
  (strategy : strategy_t) : option (result sim_state) :=
  let build_info_clone := clone build_info in
  let cso := init in
  match while_true (purchase_step duration strategy) fuel (cso, build_info_clone) with
  | None => None
  | Some (Raise e) => Some (Raise e)
  | Some (Ok (cso1, bi1)) =>
      let cso2 := wait cso1 (duration - get_time cso1) in
      while_true (final_step duration strategy) fuel (cso2, bi1)
  end.

Definition simulate_clicker (fuel : nat) (build_info : BuildInfo) (duration : Q)
  (strategy : strategy_t) : option (result ClickerState) :=
  match simulate_run fuel build_info duration strategy with
  | None => None
  | Some (Raise e) => Some (Raise e)
  | Some (Ok (cso, _)) => Some (Ok cso)
  end.

(** ** Reachable states *)

(** The states a client can bring a fresh [ClickerState] into, with
    whatever arguments it likes. *)
Inductive reachable : ClickerState -> Prop :=
| reach_init : reachable init
| reach_wait s time : reachable s -> reachable (wait s time)
| reach_buy s item cost additional_cps :
    reachable s -> reachable (buy_item s item cost additional_cps).

(** The same with the arguments the data model allows: a cost is not
    negative and an item does not lower the rate. *)
Inductive reachable_nonneg : ClickerState -> Prop :=
| rn_init : reachable_nonneg init
| rn_wait s time : reachable_nonneg s -> reachable_nonneg (wait s time)
| rn_buy s item cost additional_cps :
    0 <= cost -> 0 <= additional_cps ->
    reachable_nonneg s -> reachable_nonneg (buy_item s item cost additional_cps).

Definition time_ordered (h : list event) : Prop :=
  StronglySorted (fun e1 e2 => event_time e1 <= event_time e2) h.

Definition sentinel : event := (0, None, 0, 0).

(** ** States, catalogs and inputs the statements speak of *)

(** The invariant behind the ordering: nothing in the history is later
    than the clock, and the sentinel stays in front. *)
Definition history_inv (s : ClickerState) : Prop :=
  time_ordered (history s) /\
  Forall (fun e => event_time e <= current_time s) (history s) /\
  exists rest, history s = sentinel :: rest.

(** Two states a client reaches with a cursed item: rate 0 and rate -1. *)
Definition stalled : ClickerState := buy_item init "Curse" 0 (-1).
Definition draining : ClickerState := buy_item init "Curse" 0 (-2).

(** Two Cursors, bought at time 15 and at time 35. *)
Definition bought_twice : ClickerState :=
  buy_item (wait (buy_item (wait init 15) "Cursor" 15 (1 # 10)) 20) "Cursor" 17 (1 # 10).


(** Two items with the costs and rates of the game. *)
Definition shop : BuildInfo :=
  [("Cursor"%string, mkItem 15 (1 # 10) (Multiplicative (115 # 100)));
   ("Grandma"%string, mkItem 100 (1 # 2) (Multiplicative (115 # 100)))].

(** [n] purchases of one item in the first loop: [n] calls of
    [update_item]. *)
Fixpoint update_item_times (n : nat) (bi : BuildInfo) (item : string) : BuildInfo :=
  match n with
  | O => bi
  | S n' => update_entries (update_item_times n' bi item) item
  end.

(** A catalog whose costs are at least [m], whose items do not lower the
    rate and whose growth rules do not lower a cost. *)
Definition growth_nondecreasing (g : growth_rule) : Prop :=
  match g with
  | Multiplicative f => 1 <= f
  | Additive d => 0 <= d
  end.

Definition item_ok (m : Q) (v : item_info) : Prop :=
  m <= item_cost v /\ 0 <= item_cps v /\ growth_nondecreasing (item_growth v).

Definition catalog_ok (m : Q) (bi : BuildInfo) : Prop :=
  Forall (fun kv => item_ok m (snd kv)) bi.

(** The catalogs of the data model with no free item. *)
Definition catalog_positive (bi : BuildInfo) : Prop :=
  Forall (fun kv => 0 < item_cost (snd kv) /\ 0 <= item_cps (snd kv) /\
                    growth_nondecreasing (item_growth (snd kv))) bi.



(** A catalog whose one item lowers the rate, and the state the run on
    it is in after the first purchase. *)
Definition cursed : BuildInfo :=
  [("Cursor"%string, mkItem 1 (-2) (Multiplicative 1))].

Definition cursed_state : ClickerState :=
  {| total_cookies := 1;
     current_cookies := 0;
     current_time := 1;
     cps := -1;
     history := [(0, None, 0, 0); (1, Some "Cursor"%string, 1, 1)] |}.

(** ** The other functions of the file *)

(** The loop of [strategy_best]: [(cost / cps, item)] for every item of
    [build_items()]; the float division raises on an item that adds no
    rate. *)
Fixpoint ratios (bi : BuildInfo) (items : list string) : result (list (Q * string)) :=
  match items with
  | [] => Ok []
  | item :: rest =>
      cost <- get_cost bi item ;;
      add_cps <- get_item_cps bi item ;;
      if Qeq_bool add_cps 0 then Raise ZeroDivisionError
      else
        tail <- ratios bi rest ;;
        Ok ((cost / add_cps, item) :: tail)
  end.

(** [strategy_best]: [potential_cookies] is computed and not used. *)
Definition strategy_best : strategy_t :=
  fun cookies cps history time_left build_info =>
    let potential_cookies := cookies + time_left * cps in
    available_items <- ratios build_info (build_items build_info) ;;
    if Nat.eqb (List.length available_items) 0 then Ok None
    else Ok (first_item (sorted_by_cost_rev available_items)).

(** The loop state of [max_item_purchase]: the cloned catalog, the
    counter, the cost last paid and the time left. *)
Definition count_state : Type := (BuildInfo * nat * Q * Q)%type.

(** The body of the [while time_left >= cost] loop (lines 252-256). *)
Definition max_item_purchase_step (item : string) (st : count_state)
  : step_result count_state (result nat) :=
  let '(b_i, counter, cost, time_left) := st in
  if Qle_bool cost time_left then
    match get_cost b_i item with
    | Raise e => Break (Raise e)
    | Ok cost' =>
        match update_item b_i item with
        | Raise e => Break (Raise e)
        | Ok b_i' => Continue (b_i', Datatypes.S counter, cost', time_left - cost')
        end
    end
  else Break (Ok counter).

(** [max_item_purchase] *)
Definition max_item_purchase (fuel : nat) (item : string) (time_left cost : Q)
  (build_info : BuildInfo) : option (result nat) :=
  let b_i := clone build_info in
  while_true (max_item_purchase_step item) fuel (b_i, O, cost, time_left).

(** [cps_return] *)
Definition cps_return (no_of_purchases : nat) (cps : Q) : Q :=
  inject_Z (Z.of_nat no_of_purchases) * cps.

(** The points [run_strategy] hands to the plot (line 297):
    [(item[0], item[3])] for every history entry. *)
Definition plot_points (h : list event) : list (Q * Q) :=
  map (fun item => (event_time item, event_total item)) h.

(** Points that go up, or stay, in both coordinates. *)
Definition points_rising (pts : list (Q * Q)) : Prop :=
  StronglySorted (fun p q => fst p <= fst q /\ snd p <= snd q) pts.

(** A catalog with an item that adds no rate. *)
Definition idle_shop : BuildInfo :=
  [("Cursor"%string, mkItem 15 (1 # 10) (Multiplicative (115 # 100)));
   ("Statue"%string, mkItem 50 0 (Multiplicative (115 # 100)))].

(** A strategy that asks for an item no catalog here has. *)
Definition strategy_unknown : strategy_t :=
  fun _ _ _ _ _ => Ok (Some "Portal"%string).

(** * The same program on IEEE doubles *)

(** Where a statement is about the value that a sum, a difference, a
    quotient or a ceiling has, the program is read on the numbers it
    computes with.  A Python [float] is an IEEE binary64 double, and so is
    a primitive float here: [+], [-], [*] and [/] round to the nearest
    double, ties to even, and the comparisons are IEEE's.  A decimal
    literal stands for the nearest double, as it does in Python. *)
Module Binary64.

Local Open Scope float_scope.

(** The exceptions of the embedding over [Q], and the two that
    [math.ceil] raises on a float that is no number to round. *)
Inductive exn : Type :=
| ZeroDivisionError
| OverflowError
| ValueError
| KeyError (item : string).

Inductive result (A : Type) : Type :=
| Ok (a : A)
| Raise (e : exn).
Arguments Ok {A} a.
Arguments Raise {A} e.

Definition bind {A B : Type} (r : result A) (k : A -> result B) : result B :=
  match r with
  | Ok a => k a
  | Raise e => Raise e
  end.

Declare Scope double_scope.
Notation "x <- r ;; k" := (bind r (fun x => k))
  (at level 61, r at next level, right associativity) : double_scope.
Local Open Scope double_scope.

(** The rational that a finite double is: sign, mantissa and exponent
    read off; an infinity and a NaN, which are no rationals, and the
    zeros are sent to 0. *)
Definition SF2Q (x : spec_float) : Q :=
  match x with
  | S754_finite s m e =>
      ((if s then - inject_Z (Zpos m) else inject_Z (Zpos m)) * 2 ^ e)%Q
  | _ => 0%Q
  end.

Definition F2Q (x : float) : Q := SF2Q (Prim2SF x).

(** [float(n)] for a Python int: the nearest double, ties to even. *)
Definition Z2F (n : Z) : float := SF2Prim (binary_normalize prec emax n 0 false).


(** What [time_until] returns: the float [0.0], or the int that
    [math.ceil] gives. *)
Inductive number : Type :=
| Float (x : float)
| Int (n : Z).

(** A number where the program goes on to compute with floats: an int
    is converted.  The ints of [math.ceil] are doubles themselves, so
    nothing is lost there. *)
Definition to_float (x : number) : float :=
  match x with
  | Float f => f
  | Int n => Z2F n
  end.

(** [x == 0] on a number. *)
Definition is_zero_number (x : number) : bool :=
  match x with
  | Float f => f =? 0
  | Int n => (n =? 0)%Z
  end.

(** [math.ceil] on a float: the least int that is not below it;
    [OverflowError] on an infinity, [ValueError] on a NaN. *)
Definition ceil (x : float) : result number :=
  if is_nan x then Raise ValueError
  else if is_infinity x then Raise OverflowError
  else Ok (Int (Qceiling (F2Q x))).

(** Python's [a / b] on floats: a divisor that is zero raises. *)
Definition truediv (a b : float) : result float :=
  if b =? 0 then Raise ZeroDivisionError else Ok (a / b).

Definition event : Type := (float * option string * float * float)%type.

Record ClickerState : Type := mkClickerState {
  total_cookies : float;
  current_cookies : float;
  current_time : float;
  cps : float;
  history : list event
}.

(** [ClickerState.__init__] *)
Definition init : ClickerState :=
  {| total_cookies := 0;
     current_cookies := 0;
     current_time := 0;
     cps := 1;
     history := [(0, None, 0, 0)] |}.

Definition get_cookies (s : ClickerState) : float := current_cookies s.
Definition get_cps (s : ClickerState) : float := cps s.
Definition get_time (s : ClickerState) : float := current_time s.
Definition get_history (s : ClickerState) : list event := history s.

(** [time_until] *)
Definition time_until (s : ClickerState) (cookies : float) : result number :=
  if cookies <=? get_cookies s then Ok (Float 0)
  else
    q <- truediv (cookies - get_cookies s) (get_cps s) ;;
    ceil q.

(** [wait] *)
Definition wait (s : ClickerState) (time : float) : ClickerState :=
  if time <=? 0 then s
  else
    let new_cookies := get_cps s * time in
    {| total_cookies := total_cookies s + new_cookies;
       current_cookies := current_cookies s + new_cookies;
       current_time := current_time s + time;
       cps := cps s;
       history := history s |}.

(** [buy_item]: [cost > self.get_cookies()] is [get_cookies s <? cost]. *)
Definition buy_item (s : ClickerState) (item_name : string) (cost additional_cps : float)
  : ClickerState :=
  if get_cookies s <? cost then s
  else
    {| total_cookies := total_cookies s;
       current_cookies := current_cookies s - cost;
       current_time := current_time s;
       cps := cps s + additional_cps;
       history := history s ++ [(get_time s, Some item_name, cost, total_cookies s)] |}.

(** Modelled from the spec: the class [BuildInfo] of the provided module
    [poc_clicker_provided], as in the embedding over [Q], with costs,
    rates and growth rules that are doubles. *)
Inductive growth_rule : Type :=
| Multiplicative (growth_factor : float)
| Additive (growth_increment : float).

Record item_info : Type := mkItem {
  item_cost : float;
  item_cps : float;
  item_growth : growth_rule
}.

Definition BuildInfo : Type := list (string * item_info).

Fixpoint lookup (bi : BuildInfo) (item : string) : option item_info :=
  match bi with
  | [] => None
  | (k, v) :: rest => if String.eqb k item then Some v else lookup rest item
  end.

Definition get_cost (bi : BuildInfo) (item : string) : result float :=
  match lookup bi item with
  | Some v => Ok (item_cost v)
  | None => Raise (KeyError item)
  end.

Definition get_item_cps (bi : BuildInfo) (item : string) : result float :=
  match lookup bi item with
  | Some v => Ok (item_cps v)
  | None => Raise (KeyError item)
  end.

Definition grow (v : item_info) : item_info :=
  {| item_cost := match item_growth v with
                  | Multiplicative g => item_cost v * g
                  | Additive d => item_cost v + d
                  end;
     item_cps := item_cps v;
     item_growth := item_growth v |}.

Definition update_entries (bi : BuildInfo) (item : string) : BuildInfo :=
  map (fun kv => if String.eqb (fst kv) item then (fst kv, grow (snd kv)) else kv) bi.

Definition update_item (bi : BuildInfo) (item : string) : result BuildInfo :=
  match lookup bi item with
  | Some _ => Ok (update_entries bi item)
  | None => Raise (KeyError item)
  end.

Definition clone (bi : BuildInfo) : BuildInfo := bi.

Definition strategy_t : Type :=
  float -> float -> list event -> float -> BuildInfo -> result (option string).

Definition strategy_cursor_broken : strategy_t :=
  fun _ _ _ _ _ => Ok (Some "Cursor"%string).

Definition sim_state : Type := (ClickerState * BuildInfo)%type.

Definition lift_step (r : result (step_result sim_state (result sim_state)))
  : step_result sim_state (result sim_state) :=
  match r with
  | Ok st => st
  | Raise e => Break (Raise e)
  end.

(** The body of the first loop (lines 135-160);
    [cso.get_time() > duration] is [duration <? get_time cso]. *)
Definition purchase_step (duration : float) (strategy : strategy_t) (st : sim_state)
  : step_result sim_state (result sim_state) :=
  let '(cso, build_info_clone) := st in
  if duration <? get_time cso then Break (Ok st)
  else
    let time_left := duration - get_time cso in
    lift_step (
      next <- strategy (get_cookies cso) (get_cps cso) (get_history cso)
                       time_left build_info_clone ;;
      match next with
      | None => Ok (Break (Ok st))
      | Some next_purchase =>
          cost <- get_cost build_info_clone next_purchase ;;
          wait_time <- time_until cso cost ;;
          let wait_to := get_time cso + to_float wait_time in
          if duration <? wait_to then Ok (Break (Ok st))
          else
            let cso1 := if is_zero_number wait_time then cso
                        else wait cso (to_float wait_time) in
            cost' <- get_cost build_info_clone next_purchase ;;
            add_cps <- get_item_cps build_info_clone next_purchase ;;
            let cso2 := buy_item cso1 next_purchase cost' add_cps in
            bi' <- update_item build_info_clone next_purchase ;;
            Ok (Continue (cso2, bi'))
      end).

(** The body of the second loop (lines 164-173). *)
Definition final_step (duration : float) (strategy : strategy_t) (st : sim_state)
  : step_result sim_state (result sim_state) :=
  let '(cso, build_info_clone) := st in
  let time_left := duration - get_time cso in
  lift_step (
    next <- strategy (get_cookies cso) (get_cps cso) (get_history cso)
                     time_left build_info_clone ;;
    match next with
    | None => Ok (Break (Ok st))
    | Some next_purchase =>
        cost <- get_cost build_info_clone next_purchase ;;
        if cost <=? get_cookies cso then
          cost' <- get_cost build_info_clone next_purchase ;;
          add_cps <- get_item_cps build_info_clone next_purchase ;;
          Ok (Continue (buy_item cso next_purchase cost' add_cps, build_info_clone))
        else Ok (Break (Ok st))
    end).

Definition simulate_run (fuel : nat) (build_info : BuildInfo) (duration : float)
  (strategy : strategy_t) : option (result sim_state) :=
  let build_info_clone := clone build_info in
  let cso := init in
  match while_true (purchase_step duration strategy) fuel (cso, build_info_clone) with
  | None => None
  | Some (Raise e) => Some (Raise e)
  | Some (Ok (cso1, bi1)) =>
      let cso2 := wait cso1 (duration - get_time cso1) in
      while_true (final_step duration strategy) fuel (cso2, bi1)
  end.

Definition simulate_clicker (fuel : nat) (build_info : BuildInfo) (duration : float)
  (strategy : strategy_t) : option (result ClickerState) :=
  match simulate_run fuel build_info duration strategy with
  | None => None
  | Some (Raise e) => Some (Raise e)
  | Some (Ok (cso, _)) => Some (Ok cso)
  end.

(** The states a client can bring a fresh [ClickerState] into. *)
Inductive attainable : ClickerState -> Prop :=
| attain_init : attainable init
| attain_wait s time : attainable s -> attainable (wait s time)
| attain_buy s item cost additional_cps :
    attainable s -> attainable (buy_item s item cost additional_cps).

(** A rate of 1.2: the fresh state after a free item that adds 0.2. *)
Definition geared : ClickerState := buy_item init "Gear" 0 0.2.

(** A long wait: 1e16 seconds, and as many cookies. *)
Definition funded : ClickerState := wait init 1e16.

(** Rates of 0.5, 0 and -1, reached with items that lower the rate. *)
Definition slowed : ClickerState := buy_item init "Brake" 0 (-0.5).
Definition halted : ClickerState := buy_item init "Curse" 0 (-1).
Definition leaking : ClickerState := buy_item init "Curse" 0 (-2).

(** A Cursor for 0.1 after 0.3 seconds, and 2.3 seconds more. *)
Definition snack : ClickerState :=
  wait (buy_item (wait init 0.3) "Cursor" 0.1 0.1) 2.3.

(** A catalog whose one item costs 1e-20. *)
Definition crumbs : BuildInfo :=
  [("Cursor"%string, mkItem 1e-20 0.1 (Multiplicative 1.15))].

(** A catalog whose one item costs 1e200 and grows by the factor 1e200:
    after one purchase the stored cost is past the largest double. *)
Definition swell : BuildInfo :=
  [("Cursor"%string, mkItem 1e200 1 (Multiplicative 1e200))].

(** A strategy that picks Cursor for the first purchase, and once more
    when no time is left. *)
Definition strategy_last_call : strategy_t :=
  fun _ _ history time_left _ =>
    match history with
    | [_] => Ok (Some "Cursor"%string)
    | [_; _] => if time_left <=? 0 then Ok (Some "Cursor"%string) else Ok None
    | _ => Ok None
    end.

(** The loop states of the sweep on [crumbs] at the horizon 0.5. *)
Definition crumbs_state (st : sim_state) : Prop :=
  get_cookies (fst st) = 0.5 /\ snd st = crumbs.

End Binary64.

(** * Properties *)

(** ** Comparisons and the branches of the state operations *)

Lemma Qgtb_true (a b : Q) : Qgtb a b = true <-> b < a.
Proof.
  unfold Qgtb. rewrite negb_true_iff. split; intro H.
  - apply Qnot_le_lt. intro Hle. apply Qle_bool_iff in Hle. congruence.
  - destruct (Qle_bool a b) eqn:E; [|reflexivity].
    apply Qle_bool_iff in E. lra.
Qed.

Lemma Qgtb_false (a b : Q) : Qgtb a b = false <-> a <= b.
Proof.
  unfold Qgtb. rewrite negb_false_iff. apply Qle_bool_iff.
Qed.

Section StateLemmas.

Variable s : ClickerState.

Lemma wait_nonpositive time : time <= 0 -> wait s time = s.
Proof.
  intro H. unfold wait. apply Qle_bool_iff in H. now rewrite H.
Qed.

Lemma wait_positive time :
  0 < time ->
  wait s time =
  {| total_cookies := total_cookies s + get_cps s * time;
     current_cookies := current_cookies s + get_cps s * time;
     current_time := current_time s + time;
     cps := cps s;
     history := history s |}.
Proof.
  intro H. unfold wait.
  destruct (Qle_bool time 0) eqn:E; [|reflexivity].
  apply Qle_bool_iff in E. lra.
Qed.

Lemma buy_item_unaffordable item cost add :
  get_cookies s < cost -> buy_item s item cost add = s.
Proof.
  intro H. unfold buy_item. apply Qgtb_true in H. now rewrite H.
Qed.

Lemma buy_item_affordable item cost add :
  cost <= get_cookies s ->
  buy_item s item cost add =
  {| total_cookies := total_cookies s;
     current_cookies := current_cookies s - cost;
     current_time := current_time s;
     cps := cps s + add;
     history := history s ++ [(get_time s, Some item, cost, total_cookies s)] |}.
Proof.
  intro H. unfold buy_item. apply Qgtb_false in H. now rewrite H.
Qed.


Lemma time_until_short cookies :
  get_cookies s < cookies -> ~ get_cps s == 0 ->
  time_until s cookies =
  Ok (inject_Z (Qceiling ((cookies - get_cookies s) / get_cps s))).
Proof.
  intros H Hr. unfold time_until.
  destruct (Qle_bool cookies (get_cookies s)) eqn:E.
  - apply Qle_bool_iff in E. lra.
  - destruct (Qeq_bool (get_cps s) 0) eqn:E0; [|reflexivity].
    apply Qeq_bool_iff in E0. contradiction.
Qed.

End StateLemmas.

Lemma ceiling_quotient_positive (d r : Q) :
  0 < r -> 0 < d -> (1 <= Qceiling (d / r))%Z.
Proof.
  intros Hr Hd.
  assert (Hq : 0 < d / r) by (apply Qlt_shift_div_l; lra).
  assert (Hc := Qle_ceiling (d / r)).
  assert (H0 : inject_Z 0 < inject_Z (Qceiling (d / r))) by (change (inject_Z 0) with 0; lra).
  rewrite <- Zlt_Qlt in H0. lia.
Qed.

(** ** time_until with a rate of zero or less *)

(** C4 as stated fails: with a rate of zero or less, [time_until] still
    returns when the target is met, and with a negative rate it returns
    (a negative wait) even when the target is not met. *)
Lemma time_until_nonpositive_rate_returns :
  reachable stalled /\ get_cps stalled <= 0 /\
  time_until stalled 0 = Ok 0 /\
  reachable draining /\ get_cps draining <= 0 /\
  time_until draining 5 = Ok (inject_Z (-5)).
Proof.
  repeat split; try (vm_compute; congruence);
    apply reach_buy; apply reach_init.
Qed.

(** ** The history *)

Lemma time_ordered_snoc (h : list event) (e : event) :
  time_ordered h ->
  Forall (fun x => event_time x <= event_time e) h ->
  time_ordered (h ++ [e]).
Proof.
  unfold time_ordered. intros Hs Hall.
  induction Hs as [|x l Hl IH Hx]; simpl.
  - constructor; constructor.
  - inversion Hall as [|? ? Hxe Hle]; subst.
    constructor.
    + apply IH. assumption.
    + apply Forall_app. split; [assumption|]. constructor; [assumption|constructor].
Qed.

Lemma history_inv_init : history_inv init.
Proof.
  unfold history_inv, time_ordered. simpl. split; [|split].
  - constructor; constructor.
  - constructor; [simpl; lra|constructor].
  - exists []. reflexivity.
Qed.

Lemma history_inv_wait (s : ClickerState) (time : Q) :
  history_inv s -> history_inv (wait s time).
Proof.
  intros [Hs [Hall Hhd]].
  destruct (Qlt_le_dec 0 time) as [Hpos|Hneg].
  - rewrite (wait_positive s time Hpos). unfold history_inv. simpl.
    split; [assumption|]. split; [|assumption].
    eapply Forall_impl; [|exact Hall]. intros e He. simpl in He. lra.
  - rewrite (wait_nonpositive s time Hneg). repeat split; assumption.
Qed.

Lemma history_inv_buy (s : ClickerState) (item : string) (cost add : Q) :
  history_inv s -> history_inv (buy_item s item cost add).
Proof.
  intros [Hs [Hall Hhd]].
  destruct (Qlt_le_dec (get_cookies s) cost) as [Hlt|Hle].
  - rewrite (buy_item_unaffordable s item cost add Hlt). repeat split; assumption.
  - rewrite (buy_item_affordable s item cost add Hle). unfold history_inv. simpl.
    split; [|split].
    + apply time_ordered_snoc; assumption.
    + apply Forall_app. split; [assumption|].
      constructor; [simpl; unfold get_time; lra|constructor].
    + destruct Hhd as [rest Hrest]. exists (rest ++ [(get_time s, Some item, cost, total_cookies s)]).
      rewrite Hrest. reflexivity.
Qed.

(** C7: in every state reached from the initial one by [wait] and
    [buy_item], the history runs in non-decreasing time and starts with
    the sentinel [(0.0, None, 0.0, 0.0)]. *)
Theorem history_ordered_from_sentinel (s : ClickerState) :
  reachable s ->
  time_ordered (get_history s) /\
  exists rest, get_history s = (0, None, 0, 0) :: rest.
Proof.
  intro Hr.
  assert (Hinv : history_inv s).
  { induction Hr.
    - apply history_inv_init.
    - now apply history_inv_wait.
    - now apply history_inv_buy. }
  destruct Hinv as [Hs [_ Hhd]]. split; assumption.
Qed.

Lemma history_ordered_from_sentinel_witness :
  time_ordered (get_history bought_twice) /\
  exists rest, get_history bought_twice = (0, None, 0, 0) :: rest.
Proof.
  apply (history_ordered_from_sentinel bought_twice).
  unfold bought_twice. repeat constructor.
Defined.

(** ** The lifetime total *)







(** ** A fresh state and the idle run *)

Lemma idle_run (build_info : BuildInfo) (duration : Q) (fuel : nat) :
  0 <= duration ->
  simulate_clicker (S fuel) build_info duration strategy_none =
  Some (Ok (wait init (duration - get_time init))).
Proof.
  intro H.
  assert (E : Qgtb (get_time init) duration = false) by (apply Qgtb_false; exact H).
  assert (E1 : purchase_step duration strategy_none (init, build_info) =
               Break (Ok (init, build_info))).
  { unfold purchase_step. rewrite E. reflexivity. }
  unfold simulate_clicker, simulate_run, clone.
  cbn [while_true]. rewrite E1. reflexivity.
Qed.

(** C10: a fresh state has time 0, balance 0, total 0, the history
    [[(0.0, None, 0.0, 0.0)]] and rate 1; a run that never buys, over a
    horizon [H >= 0], ends with balance and total [1 * H]. *)
Theorem fresh_state_and_idle_run (build_info : BuildInfo) (duration : Q) :
  (get_time init = 0 /\ get_cookies init = 0 /\ total_cookies init = 0 /\
   get_history init = [(0, None, 0, 0)] /\ get_cps init = 1) /\
  (0 <= duration ->
   forall fuel, exists s,
     simulate_clicker (S fuel) build_info duration strategy_none = Some (Ok s) /\
     get_cookies s == 1 * duration /\ total_cookies s == 1 * duration /\
     get_time s == duration /\ get_history s = [(0, None, 0, 0)]).
Proof.
  split; [repeat split|].
  intros H fuel. exists (wait init (duration - get_time init)).
  split; [now apply idle_run|].
  change (get_time init) with 0.
  destruct (Qlt_le_dec 0 (duration - 0)) as [Hpos|Hneg].
  - rewrite (wait_positive init _ Hpos). unfold get_cookies, get_time, get_history. simpl.
    repeat split; lra.
  - rewrite (wait_nonpositive init _ Hneg). unfold get_cookies, get_time, get_history. simpl.
    repeat split; lra.
Qed.

Lemma fresh_state_and_idle_run_witness :
  exists s,
    simulate_clicker 1 [] 100 strategy_none = Some (Ok s) /\
    get_cookies s == 1 * 100 /\ total_cookies s == 1 * 100 /\
    get_time s == 100 /\ get_history s = [(0, None, 0, 0)].
Proof.
  apply (fresh_state_and_idle_run [] 100). vm_compute. discriminate.
Defined.

(** ** strategy_cheap *)

Lemma insert_by_cost_head (x : Q * string) (l : list (Q * string)) :
  exists y rest, insert_by_cost x l = y :: rest /\ fst y <= fst x /\
                 (y = x \/ exists l', l = y :: l').
Proof.
  destruct l as [|y l]; simpl.
  - exists x, []. repeat split; [lra|now left].
  - destruct (Qle_bool (fst x) (fst y)) eqn:E.
    + exists x, (y :: l). repeat split; [lra|now left].
    + exists y, (insert_by_cost x l). repeat split.
      * assert (~ fst x <= fst y) by (rewrite <- Qle_bool_iff; congruence). lra.
      * right. now exists l.
Qed.

(** The head of the sorted list costs no more than any element. *)
Lemma sorted_by_cost_head_least (l : list (Q * string)) :
  match sorted_by_cost l with
  | [] => l = []
  | y :: _ => In y l /\ Forall (fun x => fst y <= fst x) l
  end.
Proof.
  induction l as [|x l IH]; simpl; [reflexivity|].
  destruct (insert_by_cost_head x (sorted_by_cost l)) as [y [rest [E [Hle Hy]]]].
  fold (sorted_by_cost l) in *. rewrite E.
  destruct Hy as [->|[l' Hl']].
  - split; [now left|]. constructor; [lra|].
    destruct (sorted_by_cost l) as [|z t] eqn:Es.
    + subst l. constructor.
    + destruct IH as [_ IH]. simpl in E.
      assert (Hxz : fst x <= fst z).
      { destruct (Qle_bool (fst x) (fst z)) eqn:Ez.
        - now apply Qle_bool_iff.
        - inversion E; subst. lra. }
      eapply Forall_impl; [|exact IH]. intros a Ha. simpl in Ha. lra.
  - rewrite Hl' in IH. destruct IH as [Hin Hall].
    split; [now right|]. constructor; assumption.
Qed.

Lemma lookup_build_items (bi : BuildInfo) (k : string) :
  In k (build_items bi) <-> exists v, lookup bi k = Some v.
Proof.
  unfold build_items. induction bi as [|[k0 v0] bi IH]; simpl.
  - split; [contradiction|]. intros [v Hv]. discriminate.
  - destruct (String.eqb k0 k) eqn:E.
    + apply String.eqb_eq in E. split; [intros _; now exists v0|intros _; now left].
    + apply String.eqb_neq in E. rewrite <- IH. split.
      * intros [H|H]; [contradiction|assumption].
      * intro H. now right.
Qed.

(** Over items of the catalog the loop raises nothing, and collects the
    items within the bound, each with its cost. *)
Lemma available_in (bi : BuildInfo) (bound : Q) (items : list string) :
  (forall k, In k items -> exists v, lookup bi k = Some v) ->
  exists l, available bi items bound = Ok l /\
    forall c k, In (c, k) l <->
      In k items /\ exists v, lookup bi k = Some v /\ c = item_cost v /\
                              item_cost v <= bound.
Proof.
  induction items as [|k0 items IH]; intro Hall.
  - exists []. split; [reflexivity|]. intros c k. simpl. split; [contradiction|tauto].
  - destruct IH as [l [El Hl]]; [intros k Hk; apply Hall; now right|].
    destruct (Hall k0 (or_introl eq_refl)) as [v0 Hv0].
    cbn [available]. unfold get_cost. rewrite Hv0. cbn [bind]. rewrite El. cbn [bind].
    destruct (Qle_bool (item_cost v0) bound) eqn:E.
    + exists ((item_cost v0, k0) :: l). split; [reflexivity|].
      apply Qle_bool_iff in E. intros c k. simpl. rewrite Hl. split.
      * intros [H|[Hin Hv]].
        -- inversion H; subst. split; [now left|]. now exists v0.
        -- split; [now right|assumption].
      * intros [[H|Hin] [v [Hv [Hc Hb]]]].
        -- subst k0. left. rewrite Hv0 in Hv. inversion Hv; subst. reflexivity.
        -- right. split; [assumption|]. now exists v.
    + exists l. split; [reflexivity|].
      intros c k. rewrite Hl. simpl. split.
      * intros [Hin Hv]. split; [now right|assumption].
      * intros [[H|Hin] [v [Hv [Hc Hb]]]].
        -- subst k0. rewrite Hv0 in Hv. inversion Hv; subst.
           apply Qle_bool_iff in Hb. congruence.
        -- split; [assumption|]. now exists v.
Qed.

(** What [strategy_cheap] does: the cheapest item among those that cost
    at most [time_left / cps], and [None] when there is none. *)
Lemma strategy_cheap_within_quotient
  (cookies rate : Q) (h : list event) (time_left : Q) (bi : BuildInfo) :
  ~ rate == 0 ->
  exists choice, strategy_cheap cookies rate h time_left bi = Ok choice /\
  match choice with
  | None => forall k v, lookup bi k = Some v -> ~ item_cost v <= time_left / rate
  | Some k =>
      exists v, lookup bi k = Some v /\ item_cost v <= time_left / rate /\
      forall k' v', lookup bi k' = Some v' -> item_cost v' <= time_left / rate ->
                    item_cost v <= item_cost v'
  end.
Proof.
  intro Hr. unfold strategy_cheap.
  destruct (Qeq_bool rate 0) eqn:E0; [apply Qeq_bool_iff in E0; contradiction|].
  destruct (available_in bi (time_left / rate) (build_items bi)) as [l [El Hl]];
    [intros k Hk; now apply lookup_build_items|].
  rewrite El. cbn [bind].
  assert (Hs := sorted_by_cost_head_least l).
  destruct l as [|x l']; cbn [List.length Nat.eqb].
  - eexists. split; [reflexivity|]. intros k v Hv Hle.
    apply (proj2 (Hl (item_cost v) k)).
    split; [apply lookup_build_items; now exists v|now exists v].
  - eexists. split; [reflexivity|].
    destruct (sorted_by_cost (x :: l')) as [|[c k] t]; [discriminate|].
    destruct Hs as [Hin Hall]. simpl.
    apply Hl in Hin. destruct Hin as [_ [v [Hv [Hc Hb]]]].
    exists v. repeat split; try assumption.
    intros k' v' Hv' Hb'.
    rewrite Forall_forall in Hall.
    assert (H := Hall (item_cost v', k')). simpl in H. rewrite <- Hc.
    apply H. apply Hl.
    split; [apply lookup_build_items; now exists v'|now exists v'].
Qed.

(** C3 at a failing input: with 100 cookies, rate 2 and 10 seconds left a
    Cursor at 15 is within [balance + rate * time_left = 120], yet
    [strategy_cheap] compares with [time_left / cps = 5] and returns
    [None]; [strategy_expensive], with the sum, does find an item. *)
Theorem strategy_cheap_divides_time_by_rate :
  get_cost shop "Cursor" = Ok 15 /\ 15 <= 100 + 2 * 10 /\
  strategy_cheap 100 2 [sentinel] 10 shop = Ok None /\
  strategy_expensive 100 2 [sentinel] 10 shop = Ok (Some "Grandma"%string).
Proof.
  repeat split. vm_compute. discriminate.
Qed.

(** ** The catalog under purchases *)

Lemma lookup_update_entries_same (bi : BuildInfo) (item : string) :
  lookup (update_entries bi item) item = option_map grow (lookup bi item).
Proof.
  induction bi as [|[k v] bi IH]; simpl; [reflexivity|].
  destruct (String.eqb k item) eqn:E; simpl; rewrite E; [reflexivity|exact IH].
Qed.

Lemma lookup_update_entries_other (bi : BuildInfo) (item other : string) :
  other <> item -> lookup (update_entries bi item) other = lookup bi other.
Proof.
  intro Hne. induction bi as [|[k v] bi IH]; simpl; [reflexivity|].
  destruct (String.eqb k item) eqn:E; simpl.
  - apply String.eqb_eq in E. subst k.
    destruct (String.eqb item other) eqn:E'; [|exact IH].
    apply String.eqb_eq in E'. congruence.
  - destruct (String.eqb k other); [reflexivity|exact IH].
Qed.

(** The closed form of the growth: after [n] updates an item with
    factor [g] and base cost [c0] costs [c0 * g ^ n]. *)
Lemma update_item_times_multiplicative
  (bi : BuildInfo) (item : string) (v : item_info) (g : Q) (n : nat) :
  lookup bi item = Some v -> item_growth v = Multiplicative g ->
  exists v', lookup (update_item_times n bi item) item = Some v' /\
             item_growth v' = Multiplicative g /\ item_cps v' = item_cps v /\
             item_cost v' == item_cost v * g ^ Z.of_nat n.
Proof.
  intros Hl Hg. induction n as [|n [v' [Hl' [Hg' [Hc' Hcost]]]]].
  - exists v. simpl. repeat split; try assumption. lra.
  - exists (grow v'). cbn [update_item_times].
    rewrite lookup_update_entries_same, Hl'. cbn [option_map].
    split; [reflexivity|]. split; [exact Hg'|]. split; [exact Hc'|].
    unfold grow. cbn [item_cost]. rewrite Hg', Hcost, Nat2Z.inj_succ, <- Z.add_1_r.
    rewrite Qpower_plus' by lia. change (g ^ 1) with g. ring.
Qed.

(** A purchase of the first loop is followed by [update_item]. *)
Lemma purchase_step_updates_catalog
  (duration : Q) (strategy : strategy_t) (cso cso' : ClickerState) (bi bi' : BuildInfo) :
  purchase_step duration strategy (cso, bi) = Continue (cso', bi') ->
  exists item, update_item bi item = Ok bi'.
Proof.
  unfold purchase_step.
  destruct (Qgtb (get_time cso) duration); [discriminate|].
  destruct (strategy _ _ _ _ _) as [[item|]|e]; cbn [bind lift_step]; try discriminate.
  destruct (get_cost bi item) as [cost|e]; cbn [bind lift_step]; [|discriminate].
  destruct (time_until cso cost) as [w|e]; cbn [bind lift_step]; [|discriminate].
  destruct (Qgtb (get_time cso + w) duration); cbn [lift_step]; [discriminate|].
  destruct (get_item_cps bi item) as [add|e]; cbn [bind lift_step]; [|discriminate].
  destruct (update_item bi item) as [bi1|e] eqn:Eu; cbn [bind lift_step]; [|discriminate].
  intro H. inversion H; subst. now exists item.
Qed.

(** A purchase of the second loop is not: the catalog is handed on as it
    was, so the next purchase of the item is at the same cost. *)
Lemma final_step_leaves_catalog
  (duration : Q) (strategy : strategy_t) (cso cso' : ClickerState) (bi bi' : BuildInfo) :
  final_step duration strategy (cso, bi) = Continue (cso', bi') ->
  bi' = bi /\
  exists item cost add,
    get_cost bi item = Ok cost /\ get_item_cps bi item = Ok add /\
    cost <= get_cookies cso /\ cso' = buy_item cso item cost add.
Proof.
  unfold final_step.
  destruct (strategy _ _ _ _ _) as [[item|]|e]; cbn [bind lift_step]; try discriminate.
  destruct (get_cost bi item) as [cost|e] eqn:Ec; cbn [bind lift_step]; [|discriminate].
  destruct (Qle_bool cost (get_cookies cso)) eqn:E; cbn [lift_step]; [|discriminate].
  destruct (get_item_cps bi item) as [add|e] eqn:Ea; cbn [bind lift_step]; [|discriminate].
  intro H. inversion H; subst. split; [reflexivity|].
  exists item, cost, add. apply Qle_bool_iff in E. repeat split; assumption.
Qed.

(** C9 at a failing input: one Cursor at 1/4 with growth 1.15, a horizon
    of 1/2 and the strategy that always picks Cursor.  The first loop
    cannot buy (the wait of 1 passes the horizon); the second loop buys
    twice, both times at 1/4, and the stored cost is still 1/4 and not
    [1/4 * 1.15 ^ 2]: the second loop has no [update_item]. *)
Theorem terminal_purchases_keep_stored_cost :
  exists cso bi,
    simulate_run 3 [("Cursor"%string, mkItem (1 # 4) (1 # 10) (Multiplicative (115 # 100)))]
                 (1 # 2) strategy_cursor_broken = Some (Ok (cso, bi)) /\
    get_history cso =
      [(0, None, 0, 0);
       (1 # 2, Some "Cursor"%string, 1 # 4, 1 # 2);
       (1 # 2, Some "Cursor"%string, 1 # 4, 1 # 2)] /\
    get_cost bi "Cursor" = Ok (1 # 4) /\
    ~ (1 # 4) == (1 # 4) * (115 # 100) ^ 2.
Proof.
  eexists. eexists. split; [vm_compute; reflexivity|].
  split; [reflexivity|]. split; [reflexivity|].
  vm_compute. discriminate.
Qed.

(** ** Loops that go round for ever *)

Section WhileTrue.

Context {S R : Type} (body : S -> step_result S R).

Lemma while_true_continue (fuel : nat) (s s' : S) :
  body s = Continue s' ->
  while_true body (Datatypes.S fuel) s = while_true body fuel s'.
Proof.
  intro H. simpl. now rewrite H.
Qed.

Lemma while_true_break (fuel : nat) (s : S) (r : R) :
  body s = Break r -> while_true body (Datatypes.S fuel) s = Some r.
Proof.
  intro H. simpl. now rewrite H.
Qed.

(** A loop state that every pass hands on unchanged keeps the loop
    going whatever the fuel. *)
Lemma while_true_stuck (P : S -> Prop) :
  (forall s, P s -> exists s', body s = Continue s' /\ P s') ->
  forall fuel s, P s -> while_true body fuel s = None.
Proof.
  intros Hstep. induction fuel as [|fuel IH]; intros s Hs; [reflexivity|].
  destruct (Hstep s Hs) as [s' [E Hs']].
  rewrite (while_true_continue fuel s s' E). now apply IH.
Qed.

End WhileTrue.

Lemma catalog_ok_lookup (m : Q) (bi : BuildInfo) (item : string) (v : item_info) :
  catalog_ok m bi -> lookup bi item = Some v -> item_ok m v.
Proof.
  induction 1 as [|[k v0] bi H0 Hall IH]; simpl; [discriminate|].
  destruct (String.eqb k item); [|exact IH].
  intro E. inversion E; subst. exact H0.
Qed.

Lemma whole_wait_positive (w : Z) : (1 <= w)%Z -> 1 <= inject_Z w.
Proof.
  intro H. change 1 with (inject_Z 1). rewrite <- Zle_Qle. exact H.
Qed.




Lemma cursed_first_purchase :
  purchase_step 10 strategy_cursor_broken (init, cursed) = Continue (cursed_state, cursed).
Proof. vm_compute. reflexivity. Qed.

Lemma cursed_goes_round :
  purchase_step 10 strategy_cursor_broken (cursed_state, cursed) =
  Continue (cursed_state, cursed).
Proof. vm_compute. reflexivity. Qed.

(** An item that turns the rate negative: after the first purchase the
    wait is negative, [wait] and [buy_item] do nothing, and the first loop
    goes round in one and the same state. *)
Lemma cursed_item_out_of_fuel (fuel : nat) :
  simulate_clicker fuel cursed 10 strategy_cursor_broken = None.
Proof.
  unfold simulate_clicker, simulate_run, clone.
  destruct fuel as [|fuel]; [reflexivity|].
  rewrite (while_true_continue _ fuel _ _ cursed_first_purchase).
  rewrite (while_true_stuck _ (fun st => st = (cursed_state, cursed))); try reflexivity.
  intros st ->. exists (cursed_state, cursed). split; [exact cursed_goes_round|reflexivity].
Qed.

(** X17: an item that lowers the rate below zero keeps the first loop
    going for ever.  With a Cursor at cost 1 that adds -2, a horizon of
    10 and the strategy that always picks Cursor, the state after the
    first purchase has a rate of -1; from then on [time_until] answers
    -1, [wait] and [buy_item] do nothing, and every pass hands on the
    state it was given: no amount of fuel ends the run. *)
Theorem cursed_item_never_ends :
  purchase_step 10 strategy_cursor_broken (init, cursed) = Continue (cursed_state, cursed) /\
  get_cps cursed_state == -1 /\
  time_until cursed_state 1 = Ok (inject_Z (-1)) /\
  wait cursed_state (inject_Z (-1)) = cursed_state /\
  buy_item cursed_state "Cursor" 1 (-2) = cursed_state /\
  purchase_step 10 strategy_cursor_broken (cursed_state, cursed) =
    Continue (cursed_state, cursed) /\
  ~ exists fuel r, simulate_clicker fuel cursed 10 strategy_cursor_broken = Some r.
Proof.
  split; [exact cursed_first_purchase|]. split; [reflexivity|].
  split; [vm_compute; reflexivity|]. split; [reflexivity|]. split; [reflexivity|].
  split; [exact cursed_goes_round|].
  intros [fuel [r H]]. rewrite cursed_item_out_of_fuel in H. discriminate.
Qed.

(** * Further properties of the file's functions *)

(** ** The strategies *)

Lemma insert_by_cost_rev_head (x : Q * string) (l : list (Q * string)) :
  exists y rest, insert_by_cost_rev x l = y :: rest /\ fst x <= fst y /\
                 (y = x \/ exists l', l = y :: l').
Proof.
  destruct l as [|y l]; simpl.
  - exists x, []. repeat split; [lra|now left].
  - destruct (Qle_bool (fst y) (fst x)) eqn:E.
    + exists x, (y :: l). repeat split; [lra|now left].
    + exists y, (insert_by_cost_rev x l). repeat split.
      * assert (~ fst y <= fst x) by (rewrite <- Qle_bool_iff; congruence). lra.
      * right. now exists l.
Qed.

(** The head of the list sorted in reverse costs no less than any
    element. *)
Lemma sorted_by_cost_rev_head_greatest (l : list (Q * string)) :
  match sorted_by_cost_rev l with
  | [] => l = []
  | y :: _ => In y l /\ Forall (fun x => fst x <= fst y) l
  end.
Proof.
  induction l as [|x l IH]; simpl; [reflexivity|].
  destruct (insert_by_cost_rev_head x (sorted_by_cost_rev l)) as [y [rest [E [Hle Hy]]]].
  fold (sorted_by_cost_rev l) in *. rewrite E.
  destruct Hy as [->|[l' Hl']].
  - split; [now left|]. constructor; [lra|].
    destruct (sorted_by_cost_rev l) as [|z t] eqn:Es.
    + subst l. constructor.
    + destruct IH as [_ IH]. simpl in E.
      assert (Hzx : fst z <= fst x).
      { destruct (Qle_bool (fst z) (fst x)) eqn:Ez.
        - now apply Qle_bool_iff.
        - inversion E; subst. lra. }
      eapply Forall_impl; [|exact IH]. intros a Ha. simpl in Ha. lra.
  - rewrite Hl' in IH. destruct IH as [Hin Hall].
    split; [now right|]. constructor; assumption.
Qed.

(** X1: [strategy_expensive] never raises and answers [None] or an item
    of the catalog.  With a time left and a rate that are not negative,
    [None] means that every item costs more than the balance, and an
    item returned costs at least as much as every item that the balance
    covers at once. *)
Theorem strategy_expensive_covers_the_affordable
  (cookies rate : Q) (h : list event) (time_left : Q) (bi : BuildInfo) :
  exists choice, strategy_expensive cookies rate h time_left bi = Ok choice /\
  match choice with
  | None =>
      0 <= time_left -> 0 <= rate ->
      forall k v, lookup bi k = Some v -> cookies < item_cost v
  | Some k =>
      exists v, lookup bi k = Some v /\
      (0 <= time_left -> 0 <= rate ->
       forall k' v', lookup bi k' = Some v' -> item_cost v' <= cookies ->
                     item_cost v' <= item_cost v)
  end.
Proof.
  unfold strategy_expensive.
  destruct (available_in bi (cookies + time_left * rate) (build_items bi)) as [l [El Hl]];
    [intros k Hk; now apply lookup_build_items|].
  rewrite El. cbn [bind].
  assert (Hs := sorted_by_cost_rev_head_greatest l).
  destruct l as [|x l']; cbn [List.length Nat.eqb].
  - eexists. split; [reflexivity|]. intros Ht Hr k v Hv.
    apply Qnot_le_lt. intro Hle.
    assert (0 <= time_left * rate) by (apply Qmult_le_0_compat; assumption).
    apply (proj2 (Hl (item_cost v) k)).
    split; [apply lookup_build_items; now exists v|].
    exists v. repeat split; try assumption. lra.
  - eexists. split; [reflexivity|].
    destruct (sorted_by_cost_rev (x :: l')) as [|[c k] t]; [discriminate|].
    destruct Hs as [Hin Hall]. simpl.
    apply Hl in Hin. destruct Hin as [_ [v [Hv [Hc Hb]]]].
    exists v. split; [assumption|].
    intros Ht Hr k' v' Hv' Hb'.
    assert (0 <= time_left * rate) by (apply Qmult_le_0_compat; assumption).
    rewrite Forall_forall in Hall.
    assert (H' := Hall (item_cost v', k')). simpl in H'. rewrite <- Hc.
    apply H'. apply Hl.
    split; [apply lookup_build_items; now exists v'|].
    exists v'. repeat split; try assumption. lra.
Qed.

Lemma strategy_expensive_covers_the_affordable_witness :
  exists choice, strategy_expensive 20 1 [sentinel] 5 shop = Ok choice /\
  match choice with
  | None => forall k v, lookup shop k = Some v -> 20 < item_cost v
  | Some k =>
      exists v, lookup shop k = Some v /\
      forall k' v', lookup shop k' = Some v' -> item_cost v' <= 20 ->
                    item_cost v' <= item_cost v
  end.
Proof.
  destruct (strategy_expensive_covers_the_affordable 20 1 [sentinel] 5 shop)
    as [choice [E H]].
  exists choice. split; [exact E|].
  destruct choice as [k|].
  - destruct H as [v [Hv H]]. exists v. split; [exact Hv|].
    apply H; vm_compute; discriminate.
  - apply H; vm_compute; discriminate.
Defined.

(** X2: [strategy_cheap] raises [ZeroDivisionError] exactly when [cps]
    is zero; otherwise it answers [None] or an item of the catalog that
    no item of the catalog undercuts. *)
Theorem strategy_cheap_cheapest_of_catalog
  (cookies rate : Q) (h : list event) (time_left : Q) (bi : BuildInfo) :
  (rate == 0 -> strategy_cheap cookies rate h time_left bi = Raise ZeroDivisionError) /\
  (~ rate == 0 ->
   exists choice, strategy_cheap cookies rate h time_left bi = Ok choice /\
   match choice with
   | None => True
   | Some k =>
       exists v, lookup bi k = Some v /\
       forall k' v', lookup bi k' = Some v' -> item_cost v <= item_cost v'
   end).
Proof.
  split.
  - intro H. unfold strategy_cheap. apply Qeq_bool_iff in H. now rewrite H.
  - intro Hr.
    destruct (strategy_cheap_within_quotient cookies rate h time_left bi Hr)
      as [choice [E H]].
    exists choice. split; [exact E|].
    destruct choice as [k|]; [|exact I].
    destruct H as [v [Hv [Hb Hleast]]]. exists v. split; [exact Hv|].
    intros k' v' Hv'.
    destruct (Qlt_le_dec (time_left / rate) (item_cost v')) as [Hgt|Hle].
    + lra.
    + now apply (Hleast k').
Qed.

Lemma strategy_cheap_cheapest_of_catalog_witness :
  strategy_cheap 0 0 [sentinel] 100 shop = Raise ZeroDivisionError /\
  exists choice, strategy_cheap 0 1 [sentinel] 100 shop = Ok choice.
Proof.
  split.
  - apply (strategy_cheap_cheapest_of_catalog 0 0 [sentinel] 100 shop). reflexivity.
  - destruct (strategy_cheap_cheapest_of_catalog 0 1 [sentinel] 100 shop) as [_ H].
    destruct H as [choice [E _]]; [vm_compute; discriminate|].
    exists choice. exact E.
Defined.

Lemma ratios_in (bi : BuildInfo) (items : list string) :
  (forall k, In k items -> exists v, lookup bi k = Some v /\ ~ item_cps v == 0) ->
  exists l, ratios bi items = Ok l /\ List.length l = List.length items /\
    forall c k, In (c, k) l <->
      In k items /\ exists v, lookup bi k = Some v /\ c = item_cost v / item_cps v.
Proof.
  induction items as [|k0 items IH]; intro Hall.
  - exists []. repeat split; try contradiction. intros [[] _].
  - destruct IH as [l [El [Hlen Hl]]]; [intros k Hk; apply Hall; now right|].
    destruct (Hall k0 (or_introl eq_refl)) as [v0 [Hv0 Hnz]].
    cbn [ratios]. unfold get_cost, get_item_cps. rewrite Hv0. cbn [bind].
    destruct (Qeq_bool (item_cps v0) 0) eqn:E; [apply Qeq_bool_iff in E; contradiction|].
    rewrite El. cbn [bind].
    exists ((item_cost v0 / item_cps v0, k0) :: l).
    split; [reflexivity|]. split; [simpl; now rewrite Hlen|].
    intros c k. simpl. rewrite Hl. split.
    + intros [H|[Hin Hv]].
      * inversion H; subst. split; [now left|]. now exists v0.
      * split; [now right|assumption].
    + intros [[H|Hin] [v [Hv Hc]]].
      * subst k0. left. rewrite Hv0 in Hv. inversion Hv; subst. reflexivity.
      * right. split; [assumption|]. now exists v.
Qed.

Lemma ratios_zero_rate (bi : BuildInfo) (items : list string) :
  (forall k, In k items -> exists v, lookup bi k = Some v) ->
  (exists k v, In k items /\ lookup bi k = Some v /\ item_cps v == 0) ->
  ratios bi items = Raise ZeroDivisionError.
Proof.
  induction items as [|k0 items IH]; intros Hall [k [v [Hin [Hv Hz]]]].
  - contradiction.
  - destruct (Hall k0 (or_introl eq_refl)) as [v0 Hv0].
    cbn [ratios]. unfold get_cost, get_item_cps. rewrite Hv0. cbn [bind].
    destruct (Qeq_bool (item_cps v0) 0) eqn:E; [reflexivity|].
    rewrite IH; [reflexivity| |].
    + intros k' Hk'. apply Hall. now right.
    + destruct Hin as [->|Hin].
      * rewrite Hv0 in Hv. inversion Hv; subst.
        apply Qeq_bool_iff in Hz. congruence.
      * now exists k, v.
Qed.

(** X3: [strategy_best] raises [ZeroDivisionError] when some item of the
    catalog adds no rate.  When none does, it answers [None] only for the
    empty catalog and an item of the catalog otherwise.  Balance, rate,
    history and time left play no part in the answer. *)
Theorem strategy_best_reads_the_catalog_only
  (cookies rate : Q) (h : list event) (time_left : Q) (bi : BuildInfo) :
  ((exists k v, lookup bi k = Some v /\ item_cps v == 0) ->
   strategy_best cookies rate h time_left bi = Raise ZeroDivisionError) /\
  ((forall k v, lookup bi k = Some v -> ~ item_cps v == 0) ->
   exists choice, strategy_best cookies rate h time_left bi = Ok choice /\
   match choice with
   | None => bi = []
   | Some k => exists v, lookup bi k = Some v
   end) /\
  (forall cookies' rate' h' time_left',
     strategy_best cookies' rate' h' time_left' bi =
     strategy_best cookies rate h time_left bi).
Proof.
  unfold strategy_best. split; [|split].
  - intros [k [v [Hv Hz]]].
    rewrite ratios_zero_rate; [reflexivity| |].
    + intros k' Hk'. now apply lookup_build_items.
    + exists k, v. split; [apply lookup_build_items; now exists v|now split].
  - intro Hnz.
    destruct (ratios_in bi (build_items bi)) as [l [El [Hlen Hl]]].
    { intros k Hk. apply lookup_build_items in Hk. destruct Hk as [v Hv].
      exists v. split; [assumption|now apply (Hnz k)]. }
    rewrite El. cbn [bind].
    assert (Hs := sorted_by_cost_rev_head_greatest l).
    destruct l as [|x l']; cbn [List.length Nat.eqb].
    + eexists. split; [reflexivity|]. simpl.
      unfold build_items in Hlen. rewrite length_map in Hlen.
      destruct bi; [reflexivity|discriminate].
    + eexists. split; [reflexivity|].
      destruct (sorted_by_cost_rev (x :: l')) as [|[c k] t]; [discriminate|].
      destruct Hs as [Hin Hall]. simpl.
      apply Hl in Hin. destruct Hin as [_ [v [Hv Hc]]].
      now exists v.
  - reflexivity.
Qed.

Lemma strategy_best_reads_the_catalog_only_witness :
  strategy_best 0 1 [sentinel] 100 idle_shop = Raise ZeroDivisionError /\
  exists choice, strategy_best 0 1 [sentinel] 0 shop = Ok choice.
Proof.
  split.
  - destruct (strategy_best_reads_the_catalog_only 0 1 [sentinel] 100 idle_shop)
      as [H _].
    apply H. exists "Statue"%string, (mkItem 50 0 (Multiplicative (115 # 100))).
    split; reflexivity.
  - destruct (strategy_best_reads_the_catalog_only 0 1 [sentinel] 0 shop) as [_ [H _]].
    destruct H as [choice [E _]].
    + intros k v Hv. unfold shop in Hv. cbn [lookup] in Hv.
      destruct (String.eqb "Cursor" k);
        [inversion Hv; subst; intro Hq; vm_compute in Hq; discriminate|].
      destruct (String.eqb "Grandma" k);
        [inversion Hv; subst; intro Hq; vm_compute in Hq; discriminate|discriminate].
    + exists choice. exact E.
Defined.

(** ** Bounds on the states reached *)

(** The invariant of the states reached with costs and rates that are
    not negative. *)
Lemma reachable_nonneg_bounds (s : ClickerState) :
  reachable_nonneg s ->
  0 <= get_cookies s /\ 1 <= get_cps s /\ 0 <= get_time s /\
  get_time s <= total_cookies s.
Proof.
  unfold get_cookies, get_cps, get_time.
  induction 1 as [|s time Hr IH|s item cost add Hc Ha Hr IH].
  - simpl. repeat split; lra.
  - destruct IH as [H1 [H2 [H3 H4]]].
    destruct (Qlt_le_dec 0 time) as [Hpos|Hneg].
    + rewrite (wait_positive s time Hpos). unfold get_cps. simpl.
      assert (0 <= (cps s - 1) * time) by (apply Qmult_le_0_compat; lra).
      assert (0 <= cps s * time) by (apply Qmult_le_0_compat; lra).
      repeat split; lra.
    + rewrite (wait_nonpositive s time Hneg). repeat split; assumption.
  - destruct IH as [H1 [H2 [H3 H4]]].
    destruct (Qlt_le_dec (get_cookies s) cost) as [Hlt|Hle].
    + rewrite (buy_item_unaffordable s item cost add Hlt). repeat split; assumption.
    + rewrite (buy_item_affordable s item cost add Hle). unfold get_cookies in *. simpl.
      repeat split; lra.
Qed.



(** ** Invariants of a run *)

Lemma while_true_invariant {S R : Type} (body : S -> step_result S R)
  (I : S -> Prop) (Post : R -> Prop) :
  (forall s, I s -> match body s with
                    | Break r => Post r
                    | Continue s' => I s'
                    end) ->
  forall fuel s r, I s -> while_true body fuel s = Some r -> Post r.
Proof.
  intro Hstep. induction fuel as [|fuel IH]; intros s r Hs H; [discriminate|].
  cbn [while_true] in H. assert (Hnext := Hstep s Hs).
  destruct (body s) as [r'|s'].
  - inversion H; subst. exact Hnext.
  - eapply IH; eassumption.
Qed.

Lemma purchase_step_break_same
  (duration : Q) (strategy : strategy_t) (st st' : sim_state) :
  purchase_step duration strategy st = Break (Ok st') -> st' = st.
Proof.
  destruct st as [cso bi]. unfold purchase_step.
  destruct (Qgtb (get_time cso) duration); [intro H; now inversion H|].
  destruct (strategy _ _ _ _ _) as [[item|]|e]; cbn [bind lift_step];
    [|intro H; now inversion H|discriminate].
  destruct (get_cost bi item) as [cost|e]; cbn [bind lift_step]; [|discriminate].
  destruct (time_until cso cost) as [w|e]; cbn [bind lift_step]; [|discriminate].
  destruct (Qgtb (get_time cso + w) duration); cbn [lift_step];
    [intro H; now inversion H|].
  destruct (get_item_cps bi item) as [add|e]; cbn [bind lift_step]; [|discriminate].
  destruct (update_item bi item) as [bi1|e]; cbn [bind lift_step]; discriminate.
Qed.

Lemma final_step_break_same
  (duration : Q) (strategy : strategy_t) (st st' : sim_state) :
  final_step duration strategy st = Break (Ok st') -> st' = st.
Proof.
  destruct st as [cso bi]. unfold final_step.
  destruct (strategy _ _ _ _ _) as [[item|]|e]; cbn [bind lift_step];
    [|intro H; now inversion H|discriminate].
  destruct (get_cost bi item) as [cost|e]; cbn [bind lift_step]; [|discriminate].
  destruct (Qle_bool cost (get_cookies cso)); cbn [bind lift_step];
    [|intro H; now inversion H].
  destruct (get_item_cps bi item) as [add|e]; cbn [bind lift_step]; discriminate.
Qed.

(** What a pass of the first loop that goes round again has done. *)
Lemma purchase_step_continue
  (duration : Q) (strategy : strategy_t) (cso cso' : ClickerState) (bi bi' : BuildInfo) :
  purchase_step duration strategy (cso, bi) = Continue (cso', bi') ->
  get_time cso <= duration /\
  exists item v w,
    lookup bi item = Some v /\ time_until cso (item_cost v) = Ok w /\
    get_time cso + w <= duration /\
    cso' = buy_item (if Qeq_bool w 0 then cso else wait cso w)
                    item (item_cost v) (item_cps v) /\
    bi' = update_entries bi item.
Proof.
  unfold purchase_step.
  destruct (Qgtb (get_time cso) duration) eqn:E1; [discriminate|].
  apply Qgtb_false in E1.
  destruct (strategy _ _ _ _ _) as [[item|]|e]; cbn [bind lift_step]; try discriminate.
  unfold get_cost, get_item_cps, update_item.
  destruct (lookup bi item) as [v|] eqn:El; cbn [bind lift_step]; [|discriminate].
  destruct (time_until cso (item_cost v)) as [w|e] eqn:Ew; cbn [bind lift_step];
    [|discriminate].
  destruct (Qgtb (get_time cso + w) duration) eqn:E2; cbn [lift_step]; [discriminate|].
  apply Qgtb_false in E2.
  intro H. inversion H; subst. split; [assumption|].
  exists item, v, w. repeat split; assumption.
Qed.

(** What a pass of the second loop that goes round again has done. *)
Lemma final_step_continue
  (duration : Q) (strategy : strategy_t) (cso cso' : ClickerState) (bi bi' : BuildInfo) :
  final_step duration strategy (cso, bi) = Continue (cso', bi') ->
  exists item v,
    lookup bi item = Some v /\ item_cost v <= get_cookies cso /\
    cso' = buy_item cso item (item_cost v) (item_cps v) /\ bi' = bi.
Proof.
  unfold final_step.
  destruct (strategy _ _ _ _ _) as [[item|]|e]; cbn [bind lift_step]; try discriminate.
  unfold get_cost, get_item_cps.
  destruct (lookup bi item) as [v|] eqn:El; cbn [bind lift_step]; [|discriminate].
  destruct (Qle_bool (item_cost v) (get_cookies cso)) eqn:E; cbn [bind lift_step];
    [|discriminate].
  apply Qle_bool_iff in E.
  intro H. inversion H; subst. exists item, v. repeat split; assumption.
Qed.

Section RunInvariant.

Variables (build_info : BuildInfo) (duration : Q) (strategy : strategy_t).
Variables (I1 I2 : sim_state -> Prop).

Hypothesis start : I1 (init, build_info).
Hypothesis purchase_keeps :
  forall cso bi cso' bi',
    I1 (cso, bi) ->
    purchase_step duration strategy (cso, bi) = Continue (cso', bi') ->
    I1 (cso', bi').
Hypothesis between :
  forall cso bi, I1 (cso, bi) -> I2 (wait cso (duration - get_time cso), bi).
Hypothesis final_keeps :
  forall cso bi cso' bi',
    I2 (cso, bi) ->
    final_step duration strategy (cso, bi) = Continue (cso', bi') ->
    I2 (cso', bi').

Lemma simulate_run_invariant (fuel : nat) (st : sim_state) :
  simulate_run fuel build_info duration strategy = Some (Ok st) -> I2 st.
Proof.
  unfold simulate_run, clone.
  destruct (while_true (purchase_step duration strategy) fuel (init, build_info))
    as [[[cso1 bi1]|e]|] eqn:E1; try discriminate.
  assert (H1 : I1 (cso1, bi1)).
  { apply (while_true_invariant (purchase_step duration strategy) I1
             (fun r => match r with Ok st => I1 st | Raise _ => True end))
      with (fuel := fuel) (s := (init, build_info)) (r := Ok (cso1, bi1));
      try assumption.
    intros [cso bi] Hs.
    destruct (purchase_step duration strategy (cso, bi)) as [[st'|e]|[cso' bi']] eqn:E.
    - apply purchase_step_break_same in E. now subst.
    - exact I.
    - eapply purchase_keeps; eassumption. }
  intro E2.
  apply (while_true_invariant (final_step duration strategy) I2
           (fun r => match r with Ok st => I2 st | Raise _ => True end))
    with (fuel := fuel) (s := (wait cso1 (duration - get_time cso1), bi1)) (r := Ok st);
    try assumption; [|now apply between].
  intros [cso bi] Hs.
  destruct (final_step duration strategy (cso, bi)) as [[st'|e]|[cso' bi']] eqn:E.
  - apply final_step_break_same in E. now subst.
  - exact I.
  - eapply final_keeps; eassumption.
Qed.

End RunInvariant.

(** A property of states that [wait] keeps, and [buy_item] too when it
    is called with the cost and rate of a catalog item, holds of the
    state a run returns. *)
Lemma run_state_invariant
  (build_info : BuildInfo) (duration : Q) (strategy : strategy_t)
  (P : ClickerState -> Prop) (C : BuildInfo -> Prop) :
  P init -> C build_info ->
  (forall s time, P s -> P (wait s time)) ->
  (forall s bi item v,
     P s -> C bi -> lookup bi item = Some v ->
     P (buy_item s item (item_cost v) (item_cps v))) ->
  (forall bi item, C bi -> C (update_entries bi item)) ->
  forall fuel cso bi,
    simulate_run fuel build_info duration strategy = Some (Ok (cso, bi)) ->
    P cso /\ C bi.
Proof.
  intros Hinit HC Hwait Hbuy Hupd fuel cso bi H.
  apply (simulate_run_invariant build_info duration strategy
           (fun st => P (fst st) /\ C (snd st)) (fun st => P (fst st) /\ C (snd st)))
    with (fuel := fuel) (st := (cso, bi)); try assumption.
  - split; assumption.
  - intros s b s' b' [Hs Hb] E. simpl in *.
    apply purchase_step_continue in E.
    destruct E as [_ [item [v [w [Hl [_ [_ [-> ->]]]]]]]].
    split; [|now apply Hupd].
    apply (Hbuy _ b); try assumption.
    destruct (Qeq_bool w 0); [assumption|now apply Hwait].
  - intros s b [Hs Hb]. simpl in *. split; [now apply Hwait|assumption].
  - intros s b s' b' [Hs Hb] E. simpl in *.
    apply final_step_continue in E.
    destruct E as [item [v [Hl [_ [-> ->]]]]].
    split; [|assumption]. now apply (Hbuy _ b).
Qed.

Lemma history_inv_reachable (s : ClickerState) : reachable s -> history_inv s.
Proof.
  induction 1.
  - apply history_inv_init.
  - now apply history_inv_wait.
  - now apply history_inv_buy.
Qed.

(** X7: the state a run returns, whatever the catalog, the horizon and
    the strategy, is one that [wait] and [buy_item] reach from the fresh
    state; so its history starts with the sentinel and runs in
    non-decreasing time, and no entry is later than the clock. *)
Theorem run_result_reachable
  (fuel : nat) (build_info : BuildInfo) (duration : Q) (strategy : strategy_t)
  (s : ClickerState) :
  simulate_clicker fuel build_info duration strategy = Some (Ok s) ->
  reachable s /\
  time_ordered (get_history s) /\
  (exists rest, get_history s = (0, None, 0, 0) :: rest) /\
  Forall (fun e => event_time e <= get_time s) (get_history s).
Proof.
  unfold simulate_clicker.
  destruct (simulate_run fuel build_info duration strategy) as [[[cso bi]|e]|] eqn:E;
    try discriminate.
  intro H. inversion H; subst.
  assert (Hr : reachable s).
  { apply (run_state_invariant build_info duration strategy reachable (fun _ => True))
      with (fuel := fuel) (cso := s) (bi := bi); try assumption; try exact I.
    - constructor.
    - intros. now constructor.
    - intros. now constructor.
    - intros. exact I. }
  destruct (history_inv_reachable s Hr) as [Hs [Hall Hhd]].
  repeat split; assumption.
Qed.

Lemma run_result_reachable_witness :
  exists s, simulate_clicker 5 shop 40 strategy_cursor_broken = Some (Ok s) /\ reachable s.
Proof.
  eexists. split; [vm_compute; reflexivity|].
  eapply (run_result_reachable 5 shop 40 strategy_cursor_broken). vm_compute. reflexivity.
Defined.



(** ** The passes of the two loops *)






(** ** Runs on a catalog with costs and rates that are not negative *)

Lemma grow_ok_nonneg (v : item_info) : item_ok 0 v -> item_ok 0 (grow v).
Proof.
  intros [Hc [Hr Hg]]. unfold item_ok, grow. simpl.
  repeat split; try assumption.
  destruct (item_growth v) as [f|d]; simpl in Hg.
  - apply Qmult_le_0_compat; lra.
  - lra.
Qed.

Lemma update_entries_ok_nonneg (bi : BuildInfo) (item : string) :
  catalog_ok 0 bi -> catalog_ok 0 (update_entries bi item).
Proof.
  intro H. unfold catalog_ok, update_entries. apply Forall_map.
  eapply Forall_impl; [|exact H].
  intros [k v] Hv. simpl in *.
  destruct (String.eqb k item); simpl; [now apply grow_ok_nonneg|assumption].
Qed.

Lemma simulate_run_reachable_nonneg
  (fuel : nat) (build_info : BuildInfo) (duration : Q) (strategy : strategy_t)
  (cso : ClickerState) (bi : BuildInfo) :
  catalog_ok 0 build_info ->
  simulate_run fuel build_info duration strategy = Some (Ok (cso, bi)) ->
  reachable_nonneg cso.
Proof.
  intros Hbi H.
  apply (run_state_invariant build_info duration strategy reachable_nonneg (catalog_ok 0))
    with (fuel := fuel) (cso := cso) (bi := bi); try assumption.
  - constructor.
  - intros. now constructor.
  - intros s b item v Hs Hb Hl.
    destruct (catalog_ok_lookup 0 b item v Hb Hl) as [Hc [Ha _]].
    now constructor.
  - intros. now apply update_entries_ok_nonneg.
Qed.

Lemma strongly_sorted_snoc {A : Type} (R : A -> A -> Prop) (l : list A) (x : A) :
  StronglySorted R l -> Forall (fun y => R y x) l -> StronglySorted R (l ++ [x]).
Proof.
  intros Hs Hall. induction Hs as [|y l Hl IH Hy]; simpl.
  - constructor; constructor.
  - inversion Hall as [|? ? Hyx Hlx]; subst.
    constructor.
    + now apply IH.
    + apply Forall_app. split; [assumption|]. constructor; [assumption|constructor].
Qed.

Lemma plot_points_rising_nonneg (s : ClickerState) :
  reachable_nonneg s ->
  points_rising (plot_points (history s)) /\
  Forall (fun p => fst p <= current_time s /\ snd p <= total_cookies s)
         (plot_points (history s)).
Proof.
  induction 1 as [|s time Hr IH|s item cost add Hc Ha Hr IH].
  - simpl. split.
    + constructor; constructor.
    + constructor; [simpl; split; lra|constructor].
  - destruct IH as [Hs Hall].
    destruct (reachable_nonneg_bounds s Hr) as [_ [Hcps _]].
    destruct (Qlt_le_dec 0 time) as [Hpos|Hneg].
    + rewrite (wait_positive s time Hpos). simpl. split; [assumption|].
      assert (0 <= get_cps s * time) by (apply Qmult_le_0_compat; lra).
      eapply Forall_impl; [|exact Hall]. intros p [H1 H2]. simpl. split; lra.
    + rewrite (wait_nonpositive s time Hneg). split; assumption.
  - destruct IH as [Hs Hall].
    destruct (Qlt_le_dec (get_cookies s) cost) as [Hlt|Hle].
    + rewrite (buy_item_unaffordable s item cost add Hlt). split; assumption.
    + rewrite (buy_item_affordable s item cost add Hle). simpl.
      unfold plot_points in *. rewrite map_app. simpl. split.
      * apply strongly_sorted_snoc; assumption.
      * apply Forall_app. split; [assumption|].
        constructor; [simpl; unfold get_time; split; lra|constructor].
Qed.

(** X9: on a catalog whose costs and rates are not negative and whose
    growth rules lower no cost, the points that [run_strategy] takes from
    the history of a run, (time, total cookies) per entry, go up or stay
    in both coordinates; there is one point per history entry. *)
Theorem run_plot_points_rising
  (fuel : nat) (build_info : BuildInfo) (duration : Q) (strategy : strategy_t)
  (s : ClickerState) :
  catalog_ok 0 build_info ->
  simulate_clicker fuel build_info duration strategy = Some (Ok s) ->
  points_rising (plot_points (get_history s)) /\
  List.length (plot_points (get_history s)) = List.length (get_history s).
Proof.
  intro Hbi. unfold simulate_clicker.
  destruct (simulate_run fuel build_info duration strategy) as [[[cso bi]|e]|] eqn:E;
    try discriminate.
  intro H. inversion H; subst.
  split.
  - apply plot_points_rising_nonneg.
    eapply simulate_run_reachable_nonneg; eassumption.
  - unfold plot_points. apply length_map.
Qed.

Lemma run_plot_points_rising_witness :
  exists s, simulate_clicker 5 shop 40 strategy_cursor_broken = Some (Ok s) /\
            points_rising (plot_points (get_history s)).
Proof.
  eexists. split; [vm_compute; reflexivity|].
  eapply (run_plot_points_rising 5 shop 40 strategy_cursor_broken).
  - unfold catalog_ok, shop. repeat constructor; simpl; vm_compute; discriminate.
  - vm_compute. reflexivity.
Defined.

(** X10: on such a catalog, a state that a run returns has a balance
    that is not below zero, a rate of at least 1, and a total of at least
    the time on its clock. *)
Theorem run_result_bounds
  (fuel : nat) (build_info : BuildInfo) (duration : Q) (strategy : strategy_t)
  (s : ClickerState) :
  catalog_ok 0 build_info ->
  simulate_clicker fuel build_info duration strategy = Some (Ok s) ->
  ~ get_cookies s < 0 /\ 1 <= get_cps s /\ get_time s <= total_cookies s.
Proof.
  intros Hbi H.
  revert H. unfold simulate_clicker.
  destruct (simulate_run fuel build_info duration strategy) as [[[cso bi]|e]|] eqn:E;
    try discriminate.
  intro H. inversion H; subst.
  destruct (reachable_nonneg_bounds s
              (simulate_run_reachable_nonneg _ _ _ _ _ _ Hbi E)) as [H1 [H2 [_ H4]]].
  split; [lra|]. split; assumption.
Qed.

Lemma run_result_bounds_witness :
  exists s, simulate_clicker 5 shop 40 strategy_cursor_broken = Some (Ok s) /\
            ~ get_cookies s < 0 /\ 1 <= get_cps s /\ get_time s <= total_cookies s.
Proof.
  eexists. split; [vm_compute; reflexivity|].
  eapply (run_result_bounds 5 shop 40 strategy_cursor_broken).
  - unfold catalog_ok, shop. repeat constructor; simpl; vm_compute; discriminate.
  - vm_compute. reflexivity.
Defined.

(** ** Edge cases of a run *)

Lemma catalog_positive_lookup (bi : BuildInfo) (item : string) (v : item_info) :
  catalog_positive bi -> lookup bi item = Some v -> 0 < item_cost v.
Proof.
  induction 1 as [|[k v0] bi H0 Hall IH]; simpl; [discriminate|].
  destruct (String.eqb k item); [|exact IH].
  intro E. inversion E; subst. apply H0.
Qed.

(** With nothing in hand and no time to wait, the first loop stops at
    once on a catalog without free items: with the state as it is, or
    with what the strategy or the catalog raises. *)
Lemma purchase_step_no_time
  (build_info : BuildInfo) (duration : Q) (strategy : strategy_t) :
  duration <= 0 -> catalog_positive build_info ->
  purchase_step duration strategy (init, build_info) = Break (Ok (init, build_info)) \/
  (0 <= duration /\
   purchase_step duration strategy (init, build_info) =
   Break match strategy (get_cookies init) (get_cps init) (get_history init)
                        (duration - get_time init) build_info with
         | Ok None => Ok (init, build_info)
         | Ok (Some item) =>
             match lookup build_info item with
             | Some _ => Ok (init, build_info)
             | None => Raise (KeyError item)
             end
         | Raise e => Raise e
         end).
Proof.
  intros Hd Hpos. unfold purchase_step.
  destruct (Qgtb (get_time init) duration) eqn:E0; [now left|].
  right. split; [apply Qgtb_false in E0; exact E0|].
  destruct (strategy _ _ _ _ _) as [[item|]|e]; cbn [bind lift_step]; try reflexivity.
  unfold get_cost, get_item_cps, update_item.
  destruct (lookup build_info item) as [v|] eqn:El; cbn [bind lift_step]; [|reflexivity].
  assert (Hc := catalog_positive_lookup build_info item v Hpos El).
  rewrite (time_until_short init (item_cost v)) by (unfold get_cookies, get_cps; simpl; lra).
  cbn [bind].
  set (w := Qceiling ((item_cost v - get_cookies init) / get_cps init)).
  assert (Hw : (1 <= w)%Z).
  { apply ceiling_quotient_positive; unfold get_cookies, get_cps; simpl; lra. }
  assert (Hw1 := whole_wait_positive w Hw).
  assert (E : Qgtb (get_time init + inject_Z w) duration = true).
  { apply Qgtb_true. unfold get_time. simpl. lra. }
  rewrite E. reflexivity.
Qed.

Lemma final_step_no_cookies
  (build_info : BuildInfo) (duration : Q) (strategy : strategy_t) :
  catalog_positive build_info ->
  final_step duration strategy (init, build_info) =
  Break match strategy (get_cookies init) (get_cps init) (get_history init)
                       (duration - get_time init) build_info with
        | Ok None => Ok (init, build_info)
        | Ok (Some item) =>
            match lookup build_info item with
            | Some _ => Ok (init, build_info)
            | None => Raise (KeyError item)
            end
        | Raise e => Raise e
        end.
Proof.
  intros Hpos. unfold final_step.
  destruct (strategy _ _ _ _ _) as [[item|]|e]; cbn [bind lift_step]; try reflexivity.
  unfold get_cost, get_item_cps.
  destruct (lookup build_info item) as [v|] eqn:El; cbn [bind lift_step]; [|reflexivity].
  assert (Hc := catalog_positive_lookup build_info item v Hpos El).
  destruct (Qle_bool (item_cost v) (get_cookies init)) eqn:E; [|reflexivity].
  apply Qle_bool_iff in E. unfold get_cookies in E. simpl in E. lra.
Qed.

(** X11: over a horizon of zero or less, on a catalog without free
    items, a run buys nothing and lets no time pass.  It returns the
    fresh state when the strategy's answer for the fresh state is [None]
    or an item of the catalog; it raises [KeyError] when the answer is an
    item that the catalog does not have, and what the strategy raises
    when it raises. *)
Theorem run_without_time_returns_fresh_state
  (build_info : BuildInfo) (duration : Q) (strategy : strategy_t) (fuel : nat) :
  duration <= 0 -> catalog_positive build_info ->
  simulate_clicker (S fuel) build_info duration strategy =
  Some match strategy (get_cookies init) (get_cps init) (get_history init)
                      (duration - get_time init) build_info with
       | Ok None => Ok init
       | Ok (Some item) =>
           match lookup build_info item with
           | Some _ => Ok init
           | None => Raise (KeyError item)
           end
       | Raise e => Raise e
       end.
Proof.
  intros Hd Hpos. unfold simulate_clicker, simulate_run, clone.
  assert (E2 := final_step_no_cookies build_info duration strategy Hpos).
  destruct (purchase_step_no_time build_info duration strategy Hd Hpos) as [E1|[_ E1]].
  - rewrite (while_true_break _ fuel _ _ E1).
    rewrite (wait_nonpositive init (duration - get_time init))
      by (unfold get_time; simpl; lra).
    rewrite (while_true_break _ fuel _ _ E2).
    destruct (strategy _ _ _ _ _) as [[item|]|e]; try reflexivity.
    destruct (lookup build_info item); reflexivity.
  - rewrite (while_true_break _ fuel _ _ E1).
    destruct (strategy _ _ _ _ _) as [[item|]|e] eqn:Es.
    + destruct (lookup build_info item) eqn:El; [|reflexivity].
      rewrite (wait_nonpositive init (duration - get_time init))
        by (unfold get_time; simpl; lra).
      rewrite (while_true_break _ fuel _ _ E2). reflexivity.
    + rewrite (wait_nonpositive init (duration - get_time init))
        by (unfold get_time; simpl; lra).
      rewrite (while_true_break _ fuel _ _ E2). reflexivity.
    + reflexivity.
Qed.

Lemma run_without_time_returns_fresh_state_witness :
  simulate_clicker 1 shop 0 strategy_cursor_broken = Some (Ok init) /\
  simulate_clicker 1 shop (-1) strategy_none = Some (Ok init).
Proof.
  split.
  - rewrite (run_without_time_returns_fresh_state shop 0 strategy_cursor_broken 0).
    + reflexivity.
    + vm_compute. discriminate.
    + unfold catalog_positive, shop. repeat constructor; simpl; vm_compute; discriminate.
  - rewrite (run_without_time_returns_fresh_state shop (-1) strategy_none 0).
    + reflexivity.
    + vm_compute. discriminate.
    + unfold catalog_positive, shop. repeat constructor; simpl; vm_compute; discriminate.
Defined.

(** X12: when the strategy's first answer names an item that the catalog
    does not have, the run raises [KeyError] for that item, whatever the
    horizon: [get_cost] is called before anything else is done with the
    answer. *)
Theorem run_unknown_item_raises
  (build_info : BuildInfo) (duration : Q) (strategy : strategy_t) (item : string)
  (fuel : nat) :
  strategy (get_cookies init) (get_cps init) (get_history init)
           (duration - get_time init) build_info = Ok (Some item) ->
  lookup build_info item = None ->
  simulate_clicker (S fuel) build_info duration strategy = Some (Raise (KeyError item)).
Proof.
  intros Hs Hl. unfold simulate_clicker, simulate_run, clone.
  destruct (Qgtb (get_time init) duration) eqn:E.
  - assert (E1 : purchase_step duration strategy (init, build_info) =
                 Break (Ok (init, build_info))).
    { unfold purchase_step. now rewrite E. }
    rewrite (while_true_break _ fuel _ _ E1).
    apply Qgtb_true in E.
    rewrite (wait_nonpositive init (duration - get_time init)) by lra.
    assert (E2 : final_step duration strategy (init, build_info) =
                 Break (Raise (KeyError item))).
    { unfold final_step. rewrite Hs. cbn [bind]. unfold get_cost. rewrite Hl.
      reflexivity. }
    now rewrite (while_true_break _ fuel _ _ E2).
  - assert (E1 : purchase_step duration strategy (init, build_info) =
                 Break (Raise (KeyError item))).
    { unfold purchase_step. rewrite E, Hs. cbn [bind]. unfold get_cost. rewrite Hl.
      reflexivity. }
    now rewrite (while_true_break _ fuel _ _ E1).
Qed.

Lemma run_unknown_item_raises_witness :
  simulate_clicker 1 shop 100 strategy_unknown = Some (Raise (KeyError "Portal")).
Proof.
  apply (run_unknown_item_raises shop 100 strategy_unknown "Portal" 0); reflexivity.
Defined.

(** ** max_item_purchase *)

(** X13: [max_item_purchase] returns 0 when the time left is below the
    cost it is given, known item or not; when the time left covers that
    cost and the catalog does not have the item, it raises [KeyError]. *)
Theorem max_item_purchase_zero_or_key_error
  (item : string) (time_left cost : Q) (build_info : BuildInfo) (fuel : nat) :
  (time_left < cost ->
   max_item_purchase (S fuel) item time_left cost build_info = Some (Ok O)) /\
  (cost <= time_left -> lookup build_info item = None ->
   max_item_purchase (S fuel) item time_left cost build_info =
   Some (Raise (KeyError item))).
Proof.
  unfold max_item_purchase, clone. cbn [while_true]. unfold max_item_purchase_step.
  split.
  - intro H.
    destruct (Qle_bool cost time_left) eqn:E; [|reflexivity].
    apply Qle_bool_iff in E. lra.
  - intros H Hl. apply Qle_bool_iff in H. rewrite H.
    unfold get_cost. now rewrite Hl.
Qed.

Lemma max_item_purchase_zero_or_key_error_witness :
  max_item_purchase 1 "Cursor" 10 15 shop = Some (Ok O) /\
  max_item_purchase 1 "Portal" 20 15 shop = Some (Raise (KeyError "Portal")).
Proof.
  split.
  - apply (max_item_purchase_zero_or_key_error "Cursor" 10 15 shop 0). reflexivity.
  - apply (max_item_purchase_zero_or_key_error "Portal" 20 15 shop 0).
    + vm_compute. discriminate.
    + reflexivity.
Defined.

(** * The state operations on doubles *)

Section Doubles.

Import Binary64.
Local Open Scope float_scope.

(** ** The sign of a difference and of a quotient *)

Section Signs.

Local Open Scope Z_scope.










End Signs.

(** ** time_until *)

(** A rate above zero is not zero: the division goes through. *)
Lemma positive_not_zero (x : float) : (0 <? x) = true -> (x =? 0) = false.
Proof.
  rewrite ltb_spec, eqb_spec.
  change (Prim2SF 0) with (S754_zero false).
  destruct (Prim2SF x) as [s|s| |s m e]; simpl; try discriminate; try reflexivity.
  all: destruct s; simpl; intros; try discriminate; reflexivity.
Qed.


Lemma time_until_enough_cookies (s : ClickerState) (target : float) :
  (target <=? get_cookies s) = true -> time_until s target = Ok (Float 0).
Proof.
  intro H. unfold time_until. now rewrite H.
Qed.

Lemma time_until_quotient (s : ClickerState) (target : float) :
  (target <=? get_cookies s) = false -> (get_cps s =? 0) = false ->
  time_until s target = ceil ((target - get_cookies s) / get_cps s).
Proof.
  intros H Hr. unfold time_until, truediv. now rewrite H, Hr.
Qed.

Lemma time_until_zero_division (s : ClickerState) (target : float) :
  (target <=? get_cookies s) = false -> (get_cps s =? 0) = true ->
  time_until s target = Raise ZeroDivisionError.
Proof.
  intros H Hr. unfold time_until, truediv. now rewrite H, Hr.
Qed.




(** C4, as the code has it: [time_until] checks no rate.  It returns
    [0.0] when the target is met, whatever the rate.  When the target is
    not met it raises [ZeroDivisionError] exactly when the rate is zero,
    [OverflowError] exactly when the rate is not zero and the double
    quotient is an infinity, [ValueError] exactly when the rate is not
    zero and the quotient is a NaN, and in every other case, negative
    rates included, it returns the ceiling of the quotient.  It raises
    nothing else, and with a rate above zero only the last two. *)
Theorem time_until_raises_exactly_when (s : ClickerState) (target : float) :
  ((target <=? get_cookies s) = true -> time_until s target = Ok (Float 0)) /\
  (time_until s target = Raise ZeroDivisionError <->
   (target <=? get_cookies s) = false /\ (get_cps s =? 0) = true) /\
  (time_until s target = Raise OverflowError <->
   (target <=? get_cookies s) = false /\ (get_cps s =? 0) = false /\
   is_nan ((target - get_cookies s) / get_cps s) = false /\
   is_infinity ((target - get_cookies s) / get_cps s) = true) /\
  (time_until s target = Raise ValueError <->
   (target <=? get_cookies s) = false /\ (get_cps s =? 0) = false /\
   is_nan ((target - get_cookies s) / get_cps s) = true) /\
  ((target <=? get_cookies s) = false -> (get_cps s =? 0) = false ->
   is_nan ((target - get_cookies s) / get_cps s) = false ->
   is_infinity ((target - get_cookies s) / get_cps s) = false ->
   time_until s target =
   Ok (Int (Qceiling (F2Q ((target - get_cookies s) / get_cps s))))) /\
  (forall e, time_until s target = Raise e ->
             e = ZeroDivisionError \/ e = OverflowError \/ e = ValueError) /\
  ((0 <? get_cps s) = true ->
   forall e, time_until s target = Raise e -> e = OverflowError \/ e = ValueError).
Proof.
  split; [apply time_until_enough_cookies|].
  destruct (target <=? get_cookies s) eqn:E.
  - rewrite (time_until_enough_cookies s target E).
    repeat split; try discriminate; intros; intuition discriminate.
  - destruct (get_cps s =? 0) eqn:E0.
    + rewrite (time_until_zero_division s target E E0).
      repeat split; try discriminate; intros; try solve [intuition discriminate].
      * left. congruence.
      * apply positive_not_zero in H. congruence.
    + rewrite (time_until_quotient s target E E0). unfold ceil.
      destruct (is_nan ((target - get_cookies s) / get_cps s));
        destruct (is_infinity ((target - get_cookies s) / get_cps s));
        repeat split; try discriminate; intros; try solve [intuition discriminate];
        try (right; right; congruence); try (right; left; congruence);
        try (right; congruence); try (left; congruence).
Qed.

Lemma time_until_raises_exactly_when_witness :
  time_until halted 0 = Ok (Float 0) /\
  time_until halted 5 = Raise ZeroDivisionError /\
  time_until slowed 1e308 = Raise OverflowError /\
  time_until leaking 5 = Ok (Int (-5)).
Proof.
  destruct (time_until_raises_exactly_when halted 0) as [H0 _].
  destruct (time_until_raises_exactly_when halted 5) as [_ [[_ H1] _]].
  destruct (time_until_raises_exactly_when slowed 1e308) as [_ [_ [[_ H2] _]]].
  destruct (time_until_raises_exactly_when leaking 5) as [_ [_ [_ [_ [H3 _]]]]].
  split; [|split; [|split]].
  - apply H0. reflexivity.
  - apply H1. split; reflexivity.
  - apply H2. repeat split; reflexivity.
  - rewrite H3 by reflexivity. vm_compute. reflexivity.
Defined.

(** ** buy_item and wait *)

(** C5, as the code has it: [buy_item] leaves the state as it is when
    the cost exceeds the balance; otherwise the balance is the double
    [balance - cost], the rate the double [rate + rate_increase], the one
    event (time, item, cost, total) is appended, and time and total stay
    as they are. *)
Theorem buy_item_noop_or_rounded_purchase
  (s : ClickerState) (item : string) (cost add : float) :
  ((get_cookies s <? cost) = true -> buy_item s item cost add = s) /\
  ((get_cookies s <? cost) = false ->
   get_cookies (buy_item s item cost add) = get_cookies s - cost /\
   get_cps (buy_item s item cost add) = get_cps s + add /\
   get_history (buy_item s item cost add) =
     get_history s ++ [(get_time s, Some item, cost, total_cookies s)] /\
   get_time (buy_item s item cost add) = get_time s /\
   total_cookies (buy_item s item cost add) = total_cookies s).
Proof.
  unfold buy_item. split; intro H; rewrite H; [reflexivity|].
  repeat split.
Qed.

Lemma buy_item_noop_or_rounded_purchase_witness :
  buy_item init "Cursor" 15 0.1 = init /\
  get_cookies (buy_item funded "Cursor" 15 0.1) = get_cookies funded - 15 /\
  get_cps (buy_item funded "Cursor" 15 0.1) = get_cps funded + 0.1.
Proof.
  split.
  - apply (buy_item_noop_or_rounded_purchase init "Cursor" 15 0.1). reflexivity.
  - split; apply (buy_item_noop_or_rounded_purchase funded "Cursor" 15 0.1); reflexivity.
Defined.

(** C5 as stated fails: with 1e16 cookies a purchase at the cost 1.0
    goes through, the event is appended, and the balance is what it was:
    the cost has not been deducted. *)
Lemma buy_item_cost_not_deducted :
  attainable funded /\ (get_cookies funded <? 1) = false /\
  get_history (buy_item funded "Cursor" 1 0.1) =
    get_history funded ++ [(get_time funded, Some "Cursor"%string, 1, total_cookies funded)] /\
  get_cookies (buy_item funded "Cursor" 1 0.1) = get_cookies funded /\
  ~ (F2Q (get_cookies (buy_item funded "Cursor" 1 0.1)) ==
     F2Q (get_cookies funded) - F2Q 1)%Q.
Proof.
  split; [apply attain_wait; apply attain_init|].
  repeat split. vm_compute. discriminate.
Qed.

(** C6, as the code has it: [wait] leaves the state as it is for a
    duration of zero or less; otherwise the time is the double
    [time + duration], the balance and the total are the doubles of
    their old values plus the double [rate * duration], and rate and
    history stay as they are. *)
Theorem wait_noop_or_rounded_accrual (s : ClickerState) (time : float) :
  ((time <=? 0) = true -> wait s time = s) /\
  ((time <=? 0) = false ->
   get_time (wait s time) = get_time s + time /\
   get_cookies (wait s time) = get_cookies s + get_cps s * time /\
   total_cookies (wait s time) = total_cookies s + get_cps s * time /\
   get_cps (wait s time) = get_cps s /\
   get_history (wait s time) = get_history s).
Proof.
  unfold wait. split; intro H; rewrite H; [reflexivity|].
  repeat split.
Qed.

Lemma wait_noop_or_rounded_accrual_witness :
  wait geared (-3) = geared /\
  get_time (wait geared 2.5) = get_time geared + 2.5 /\
  get_cookies (wait geared 2.5) = get_cookies geared + get_cps geared * 2.5.
Proof.
  split.
  - apply (wait_noop_or_rounded_accrual geared (-3)). reflexivity.
  - split; apply (wait_noop_or_rounded_accrual geared 2.5); reflexivity.
Defined.

(** C6 as stated fails: after 1e16 seconds a wait of 1.0, a duration
    above zero, leaves time, balance and total where they were. *)
Lemma wait_duration_not_added :
  attainable funded /\ (1 <=? 0) = false /\
  wait funded 1 = funded /\
  ~ (F2Q (get_time (wait funded 1)) == F2Q (get_time funded) + F2Q 1)%Q /\
  ~ (F2Q (get_cookies (wait funded 1)) ==
     F2Q (get_cookies funded) + F2Q (get_cps funded) * F2Q 1)%Q.
Proof.
  split; [apply attain_wait; apply attain_init|].
  repeat split; vm_compute; discriminate.
Qed.

(** ** The lifetime total on doubles *)

(** X15: on doubles the total is not always the balance plus the costs
    paid: after [wait(0.3)], [buy_item('Cursor', 0.1, 0.1)] and
    [wait(2.3)] the total is 2.8299999999999996 and the balance 2.73,
    and 2.73 plus the 0.1 paid is 2.83, in doubles and exactly. *)
Theorem total_not_balance_plus_costs :
  attainable snack /\
  get_history snack = [(0, None, 0, 0); (0.3, Some "Cursor"%string, 0.1, 0.3)] /\
  total_cookies snack = 2.8299999999999996 /\ get_cookies snack = 2.73 /\
  (get_cookies snack + 0.1 =? total_cookies snack) = false /\
  ~ (F2Q (total_cookies snack) == F2Q (get_cookies snack) + F2Q 0.1)%Q.
Proof.
  split; [repeat constructor|].
  repeat split; vm_compute; discriminate.
Qed.

(** ** A positive cost that the balance absorbs *)

Lemma crumbs_first_pass :
  purchase_step 0.5 strategy_cursor_broken (init, crumbs) = Break (Ok (init, crumbs)).
Proof. vm_compute. reflexivity. Qed.

(** With 0.5 cookies a pass of the sweep on [crumbs] buys a Cursor, and
    0.5 cookies are left. *)
Lemma crumbs_sweep_pass (cso : ClickerState) :
  get_cookies cso = 0.5 ->
  final_step 0.5 strategy_cursor_broken (cso, crumbs) =
    Continue (buy_item cso "Cursor" 1e-20 0.1, crumbs) /\
  get_history (buy_item cso "Cursor" 1e-20 0.1) =
    get_history cso ++ [(get_time cso, Some "Cursor"%string, 1e-20, total_cookies cso)] /\
  get_cookies (buy_item cso "Cursor" 1e-20 0.1) = 0.5.
Proof.
  intro Hb. split; [|split].
  - unfold final_step, strategy_cursor_broken. cbn [bind].
    change (get_cost crumbs "Cursor") with (@Ok float 1e-20).
    change (get_item_cps crumbs "Cursor") with (@Ok float 0.1).
    cbn [bind]. rewrite Hb.
    change (1e-20 <=? 0.5) with true. reflexivity.
  - unfold buy_item. rewrite Hb. change (0.5 <? 1e-20) with false. reflexivity.
  - unfold buy_item. rewrite Hb. change (0.5 <? 1e-20) with false. cbv iota.
    unfold get_cookies in *. cbn [current_cookies]. rewrite Hb. reflexivity.
Qed.

Lemma crumbs_goes_round (st : sim_state) :
  crumbs_state st ->
  exists st', final_step 0.5 strategy_cursor_broken st = Continue st' /\
              crumbs_state st'.
Proof.
  destruct st as [cso bi]. intros [Hb Hbi]. simpl in Hb, Hbi. subst bi.
  destruct (crumbs_sweep_pass cso Hb) as [E [_ Hb']].
  eexists. split; [exact E|]. split; [exact Hb'|reflexivity].
Qed.

Lemma absorbed_cost_out_of_fuel (fuel : nat) :
  simulate_clicker fuel crumbs 0.5 strategy_cursor_broken = None.
Proof.
  unfold simulate_clicker, simulate_run, clone.
  destruct fuel as [|fuel]; [reflexivity|].
  rewrite (while_true_break _ fuel _ _ crumbs_first_pass).
  rewrite (while_true_stuck _ crumbs_state crumbs_goes_round); [reflexivity|].
  split; reflexivity.
Qed.

(** X16: on doubles a positive cost does not make the sweep end.  With a
    Cursor at 1e-20, a horizon of 0.5 and the strategy that always picks
    Cursor, the first loop is left at once, the wait brings 0.5 cookies,
    and every pass of the sweep buys a Cursor and leaves the balance at
    0.5, since [0.5 - 1e-20] is the double 0.5 and the cost in the
    catalog stays what it is: no amount of fuel ends the run. *)
Theorem absorbed_cost_never_ends :
  (0 <? 1e-20) = true /\ 0.5 - 1e-20 = 0.5 /\
  purchase_step 0.5 strategy_cursor_broken (init, crumbs) = Break (Ok (init, crumbs)) /\
  get_cookies (wait init (0.5 - get_time init)) = 0.5 /\
  (forall cso, get_cookies cso = 0.5 ->
     final_step 0.5 strategy_cursor_broken (cso, crumbs) =
       Continue (buy_item cso "Cursor" 1e-20 0.1, crumbs) /\
     get_history (buy_item cso "Cursor" 1e-20 0.1) =
       get_history cso ++ [(get_time cso, Some "Cursor"%string, 1e-20, total_cookies cso)] /\
     get_cookies (buy_item cso "Cursor" 1e-20 0.1) = 0.5) /\
  ~ exists fuel r, simulate_clicker fuel crumbs 0.5 strategy_cursor_broken = Some r.
Proof.
  split; [reflexivity|]. split; [reflexivity|].
  split; [exact crumbs_first_pass|]. split; [reflexivity|].
  split; [exact crumbs_sweep_pass|].
  intros [fuel [r H]]. rewrite absorbed_cost_out_of_fuel in H. discriminate.
Qed.

Lemma absorbed_cost_never_ends_witness :
  get_cookies (buy_item (wait init 0.5) "Cursor" 1e-20 0.1) = 0.5.
Proof.
  destruct absorbed_cost_never_ends as [_ [_ [_ [_ [H _]]]]].
  apply (H (wait init 0.5)). reflexivity.
Defined.

(** ** A cost and a balance past the largest double *)

(** X18: on doubles a run on finite inputs can end with a balance that
    is no number.  With a Cursor at 1e200 that grows by the factor 1e200
    and adds 1 to the rate, a horizon of 1.7e308 and a strategy that
    buys once and once more at the horizon: the first purchase is at
    time 1e200, the stored cost becomes [infinity], the wait at rate 2
    brings balance and total to [infinity], and the sweep buys at the
    cost [infinity], which leaves the balance [infinity - infinity]. *)
Theorem overflowed_cost_leaves_no_balance :
  exists s,
    simulate_clicker 2 swell 1.7e308 strategy_last_call = Some (Ok s) /\
    get_history s =
      [(0, None, 0, 0); (1e200, Some "Cursor"%string, 1e200, 1e200);
       (1.7e308, Some "Cursor"%string, infinity, infinity)] /\
    is_nan (get_cookies s) = true /\ (0 <=? get_cookies s) = false /\
    total_cookies s = infinity /\ get_cps s = 3 /\ get_time s = 1.7e308.
Proof.
  eexists. split; [vm_compute; reflexivity|].
  repeat split.
Qed.

End Doubles.
